(** * The blog application of [main.py], as a shallow embedding

    [main.py] is a Flask application: a relational store with three tables
    (users, blog_posts, comments), a cookie session managed by Flask-Login,
    a decorator [admin_only] gating the post-mutating routes, and one
    handler per route.

    The embedding keeps the shape of the source.  A handler is a
    computation in a state-and-exception monad over the [World] (store,
    session cookie, flashed messages); Python exceptions and Flask's
    [abort] are the monad's errors; Flask's dispatcher turns an error into
    a status code.  The library calls the handlers make (Flask-Login,
    Flask-SQLAlchemy, SQLAlchemy's unit of work) are written out as far as
    the handlers depend on them, each with a note saying which documented
    behaviour of the library it follows.  What the source treats as opaque
    (the password hash function, the formatting of the date, the form
    classes of [forms.py], the order of a SELECT without ORDER BY, the text
    a template produces) is an interface or an input. *)

From stdpp Require Import base option list strings gmap fin_maps sorting.
From Stdlib Require Import ZArith.

Local Open Scope Z_scope.

(** ** Data model (the three [db.Model] classes)

    A table is a finite map from the primary key [id] to the remaining
    columns.  An object loaded by the ORM is a primary key together with its
    row: [pk] is Python's [obj.id]. *)

Module User.
Record t := mk { name : string; email : string; password : string }.
End User.

Module BlogPost.
Record t := mk {
  title : string; subtitle : string; date : string;
  body : string; img_url : string; user_id : Z }.
End BlogPost.

Module Comment.
Record t := mk { text : string; user_id : Z; post_id : Z }.
End Comment.

Definition entity (A : Type) : Type := Z * A.
Definition pk {A} (o : entity A) : Z := o.1.
Definition row {A} (o : entity A) : A := o.2.

Record Store := mkStore {
  users : gmap Z User.t;
  blog_posts : gmap Z BlogPost.t;
  comments : gmap Z Comment.t }.

(** The state a request can read and change: the committed store, the
    [_user_id] entry of the signed session cookie, and the messages handed
    to [flash] so far, in order.  The cookie is signed and only
    [login_user] writes [_user_id], always as [str(user.id)];
    [user_loader] reads it back with [int(user_id)], so the entry is
    modelled as the integer itself. *)
Record World := mkWorld {
  db : Store;
  session : option Z;
  flashes : list (string * string) }.

Definition set_db (s : Store) (w : World) : World :=
  mkWorld s (session w) (flashes w).
Definition set_session (c : option Z) (w : World) : World :=
  mkWorld (db w) c (flashes w).
Definition add_flash (m : string * string) (w : World) : World :=
  mkWorld (db w) (session w) (flashes w ++ [m]).

Definition set_users (t : gmap Z User.t) (s : Store) : Store :=
  mkStore t (blog_posts s) (comments s).
Definition set_blog_posts (t : gmap Z BlogPost.t) (s : Store) : Store :=
  mkStore (users s) t (comments s).
Definition set_comments (t : gmap Z Comment.t) (s : Store) : Store :=
  mkStore (users s) (blog_posts s) t.

(** ** Exceptions and the handler monad *)

Inductive exn :=
  | HTTPException (code : Z)   (* werkzeug's, raised by abort(code) *)
  | AttributeError
  | TypeError
  | IntegrityError.            (* sqlalchemy.exc.IntegrityError at commit *)

Inductive result (A : Type) :=
  | Ok (a : A)
  | Raise (e : exn).
Arguments Ok {A} a.
Arguments Raise {A} e.

Definition M (A : Type) : Type := World → result A * World.

Definition ret {A} (a : A) : M A := λ w, (Ok a, w).
Definition bind {A B} (m : M A) (f : A → M B) : M B :=
  λ w, match m w with
       | (Ok a, w') => f a w'
       | (Raise e, w') => (Raise e, w')
       end.
Definition raise {A} (e : exn) : M A := λ w, (Raise e, w).
Definition get_world : M World := λ w, (Ok w, w).
Definition modify (f : World → World) : M unit := λ w, (Ok tt, f w).

#[global] Instance M_ret : MRet M := @ret.
#[global] Instance M_bind : MBind M := λ A B f m, bind m f.

(** [abort(code)] of Flask. *)
Definition abort {A} (code : Z) : M A := raise (HTTPException code).

(** [flash(message, category)]: the message is recorded. *)
Definition flash (message category : string) : M unit :=
  modify (add_flash (message, category)).

(** ** Responses *)

Inductive endpoint :=
  | ep_login
  | ep_get_all_posts
  | ep_show_post (post_id : Z).

Record RegisterForm := mkRegisterForm {
  rf_name : string; rf_email : string; rf_password : string }.
Record LoginForm := mkLoginForm { lf_email : string; lf_password : string }.
Record CommentForm := mkCommentForm { cf_body : string }.
Record CreatePostForm := mkCreatePostForm {
  pf_title : string; pf_subtitle : string; pf_img_url : string; pf_body : string }.

Inductive template :=
  | register_jinja
  | login_jinja
  | index_jinja (all_posts : list (entity BlogPost.t))
  | post_jinja (post : entity BlogPost.t)
  | make_post_html (is_edit : bool)
  | about_html
  | contact_html.

(** What the client receives: a redirect, the page a template produced
    (the value [render_template] returns), or an error status. *)
Inductive response :=
  | redirect (url_for : endpoint)       (* 302 *)
  | render_template (t : template)      (* 200 *)
  | error_response (status : Z).

(** Flask's dispatcher: an [HTTPException] becomes a response with its
    code, any other exception that leaves the handler becomes a 500
    ([app.run(debug=False)]). *)
Definition dispatch (h : M response) (w : World) : response * World :=
  match h w with
  | (Ok r, w') => (r, w')
  | (Raise (HTTPException c), w') => (error_response c, w')
  | (Raise _, w') => (error_response 500, w')
  end.

(** ** The store (Flask-SQLAlchemy) *)

(** Rows of a table in primary-key order ([order_by(Model.id)]). *)
Definition by_id {A} : relation (entity A) := λ a b, pk a ≤ pk b.

#[global] Instance by_id_dec {A} : RelDecision (@by_id A) :=
  λ a b, Z_le_dec (pk a) (pk b).

Definition rows {A} (t : gmap Z A) : list (entity A) :=
  merge_sort by_id (map_to_list t).

(** The key an [Integer] primary key receives on insert: one more than the
    largest key in the table, 1 in an empty table (SQLite's rule for a
    rowid; what matters below is that the key is not in use). *)
Definition next_id {A} (t : gmap Z A) : Z :=
  foldr Z.max 0 ((map_to_list t).*1) + 1.

(** [db.get_or_404(Model, id)].  Ids are the integers an [Integer] column
    holds; an id beyond them (a URL can carry one) is refused by the
    database driver with an exception of its own, which is not modelled. *)
Definition get_or_404 {A} (table : Store → gmap Z A) (id : Z) : M (entity A) :=
  w ← get_world;
  match table (db w) !! id with
  | Some r => mret (id, r)
  | None => abort 404
  end.

(** Does some row of the table hold [v] in column [col]?  (What a UNIQUE
    or a foreign-key column is checked against.) *)
Definition has_value {A B} `{EqDecision B} (col : A → B) (v : B) (t : gmap Z A) : bool :=
  bool_decide (v ∈ col <$> (map_to_list t).*2).

Inductive Model :=
  | a_User (u : User.t)
  | a_BlogPost (p : BlogPost.t)
  | a_Comment (c : Comment.t).

(** [db.session.add(obj); db.session.commit()]: the INSERT is one
    transaction.  It returns the primary key the new row received (Python
    reads it back as [obj.id]).  The schema's constraints are the store's:
    [users.email] and [blog_posts.title] are declared [unique=True], and an
    INSERT that repeats a value fails with [IntegrityError] and stores
    nothing.  The handlers only insert references ([user_id], [post_id]) to
    rows they loaded in the same request, so the foreign keys hold. *)
Definition commit_add (o : Model) : M Z :=
  w ← get_world;
  let s := db w in
  match o with
  | a_User u =>
      if has_value User.email (User.email u) (users s) then raise IntegrityError
      else
        let id := next_id (users s) in
        modify (set_db (set_users (<[id := u]> (users s)) s));; mret id
  | a_BlogPost p =>
      if has_value BlogPost.title (BlogPost.title p) (blog_posts s) then raise IntegrityError
      else
        let id := next_id (blog_posts s) in
        modify (set_db (set_blog_posts (<[id := p]> (blog_posts s)) s));; mret id
  | a_Comment c =>
      let id := next_id (comments s) in
      modify (set_db (set_comments (<[id := c]> (comments s)) s));; mret id
  end.

(** [db.session.commit()] after assigning the attributes of a loaded post:
    one UPDATE of the row.  The UNIQUE constraint on [title] is checked
    against the other rows. *)
Definition commit_update_post (id : Z) (p : BlogPost.t) : M unit :=
  w ← get_world;
  let s := db w in
  if has_value BlogPost.title (BlogPost.title p) (delete id (blog_posts s))
  then raise IntegrityError
  else modify (set_db (set_blog_posts (<[id := p]> (blog_posts s)) s)).

(** [db.session.delete(post); db.session.commit()].  [BlogPost.comments] is
    a one-to-many relationship declared without a delete cascade, so
    SQLAlchemy's unit of work first sets [post_id] of every comment of the
    post to NULL and then deletes the post.  [Comment.post_id] is declared
    [Mapped[int]] (not [Optional]), that is, NOT NULL: when the post has a
    comment the UPDATE fails with [IntegrityError] and the transaction
    stores nothing. *)
Definition commit_delete_post (id : Z) : M unit :=
  w ← get_world;
  let s := db w in
  if has_value Comment.post_id id (comments s) then raise IntegrityError
  else modify (set_db (set_blog_posts (delete id (blog_posts s)) s)).

(** ** The session (Flask-Login) *)

(** What [current_user] stands for: Flask-Login's [AnonymousUserMixin], or
    a [User] row loaded by the user loader. *)
Inductive Principal :=
  | AnonymousUserMixin
  | a_user (u : entity User.t).

(** [is_authenticated], [is_active] and [is_anonymous] are properties of
    [UserMixin] and of [AnonymousUserMixin] (since Flask-Login 0.3; they
    were methods before): reading one gives a [bool]. *)
Definition is_authenticated (p : Principal) : bool :=
  match p with AnonymousUserMixin => false | a_user _ => true end.
Definition is_active (p : Principal) : bool :=
  match p with AnonymousUserMixin => false | a_user _ => true end.
Definition is_anonymous (p : Principal) : bool :=
  match p with AnonymousUserMixin => true | a_user _ => false end.

(** [p.id]: [AnonymousUserMixin] defines the three properties above and
    [get_id], and no attribute [id]. *)
Definition getattr_id (p : Principal) : M Z :=
  match p with
  | AnonymousUserMixin => raise AttributeError
  | a_user u => mret (pk u)
  end.

(** [b()] for a [bool] [b]: Python raises
    [TypeError: 'bool' object is not callable]. *)
Definition call_bool (b : bool) : M bool := raise TypeError.

(** The object a relationship attribute is assigned ([author=current_user]):
    SQLAlchemy reads the instance state of a mapped object, which
    [AnonymousUserMixin] does not have. *)
Definition as_mapped (p : Principal) : M (entity User.t) :=
  match p with
  | AnonymousUserMixin => raise AttributeError
  | a_user u => mret u
  end.

(** [LoginManager()] is created with its defaults: no [login_view] is ever
    set. *)
Definition login_view : option endpoint := None.

(** [login_user(user)]: refuses an inactive user, else writes the user's id
    to the session. *)
Definition login_user (user : entity User.t) : M bool :=
  if negb (is_active (a_user user)) then mret false
  else modify (set_session (Some (pk user)));; mret true.

(** [logout_user()]. *)
Definition logout_user : M bool :=
  modify (set_session None);; mret true.

(** [LoginManager.unauthorized()]: with a [login_view], a flash and a
    redirect to it; with none, [abort(401)]. *)
Definition unauthorized : M response :=
  match login_view with
  | Some v => flash "Please log in to access this page." "message";; mret (redirect v)
  | None => abort 401
  end.

(** ** The hash function and the clock

    [werkzeug.security] is an interface here: [generate_password_hash]
    takes the secret, the method, the salt length and the random material
    it draws its salt from. *)
Class PasswordHasher := {
  generate_password_hash : string → string → nat → string → string;
  check_password_hash : string → string → bool }.

(** A digest verifies against the secret it was made from. *)
Class PasswordHasherLaws `{PasswordHasher} : Prop := {
  check_generate : ∀ secret salt,
    check_password_hash
      (generate_password_hash secret "pbkdf2:sha256" 16%nat salt) secret = true }.

(** What a request reads from outside the store: the clock, as
    [date.today().strftime], and the randomness the salt is drawn from. *)
Record Env := mkEnv {
  today_strftime : string → string;
  urandom : string }.

(** ** A SELECT without ORDER BY

    [db.select(Model)] with no [order_by] returns every row of the table
    once, in an order the store chooses: the order is an interface, with
    that law. *)
Class TableScan := {
  scan : ∀ {A : Type}, gmap Z A → list (entity A);
  scan_all : ∀ (A : Type) (t : gmap Z A), scan t ≡ₚ map_to_list t }.

(** ** [main.py] *)

Section App.
Context `{hasher : PasswordHasher} `{scanner : TableScan}.

(** [get_user]: [db.get_or_404(User, id)]. *)
Definition get_user (id : Z) : M (entity User.t) :=
  get_or_404 users id.

(** [user_loader], registered with [@login_manager.user_loader].  It is
    annotated [User | None]; [get_user] either returns a row or aborts, so
    the [None] of the annotation is never produced. *)
Definition user_loader (user_id : Z) : M (option (entity User.t)) :=
  u ← get_user user_id; mret (Some u).

(** Flask-Login's [current_user]: with no [_user_id] in the session the
    principal is anonymous; with one, the user loader is called, and the
    principal is anonymous when the loader returns [None].  An exception of
    the loader is not caught.  (Flask-Login keeps the principal for the rest
    of the request; the handlers below read it again only while neither the
    users table nor the session has changed, or after [login_user] or
    [logout_user] has replaced it, so reading it from the world gives the
    same principal.) *)
Definition current_user : M Principal :=
  w ← get_world;
  match session w with
  | None => mret AnonymousUserMixin
  | Some user_id =>
      u ← user_loader user_id;
      match u with
      | Some u => mret (a_user u)
      | None => mret AnonymousUserMixin
      end
  end.

(** The call [render_template(name, ...)].  Before the template is
    rendered Flask runs the context processors, and the one Flask-Login
    registers ([LoginManager.init_app]) reads [current_user]: the user
    loader runs unless the request has loaded the principal already, and
    its exception leaves the handler.  The page itself is the response
    [render_template t]. *)
Definition render (t : template) : M response :=
  _ ← current_user; mret (render_template t).

(** Flask-Login's [@login_required]. *)
Definition login_required (function : M response) : M response :=
  cu ← current_user;
  if negb (is_authenticated cu) then unauthorized else function.

(** [admin_only]. *)
Definition admin_only (function : M response) : M response :=
  cu ← current_user;
  id ← getattr_id cu;
  if bool_decide (id = 1) then function else abort 403.

(** [hash]. *)
Definition hash (env : Env) (s : string) : string :=
  generate_password_hash s "pbkdf2:sha256" 16%nat (urandom env).

(** [db_add]. *)
Definition db_add (object : Model) : M Z := commit_add object.

(** [get_users]: all users, [order_by(User.id)]. *)
Definition get_users : M (list (entity User.t)) :=
  w ← get_world; mret (rows (users (db w))).

(** [get_user_email]: [scalar()] of the rows whose email is [email], that
    is the first of them in the order the store returns them, or [None]. *)
Definition get_user_email (email : string) : M (option (entity User.t)) :=
  w ← get_world;
  mret (head (filter (λ u, User.email (row u) = email) (scan (users (db w))))).

(** [register], with the function that establishes the session as a
    parameter.  A form argument of [Some f] is a request on which
    [form.validate_on_submit()] holds, with the submitted data [f]; [None]
    is any other request (a GET, or a submission the form rejects). *)
Definition register_with (establish : entity User.t → M bool)
    (env : Env) (form : option RegisterForm) : M response :=
  match form with
  | Some f =>
      let user := User.mk (rf_name f) (rf_email f) (hash env (rf_password f)) in
      existing ← get_users;
      if bool_decide (User.email user ∈ (λ u, User.email (row u)) <$> existing) then
        flash "The email is already registered." "email";;
        mret (redirect ep_login)
      else
        id ← db_add (a_User user);
        ok ← establish (id, user);
        if (ok : bool) then mret (redirect ep_get_all_posts)
        else render register_jinja
  | None => render register_jinja
  end.

(** [register]. *)
Definition register : Env → option RegisterForm → M response :=
  register_with login_user.

(** [login]. *)
Definition login (form : option LoginForm) : M response :=
  match form with
  | Some f =>
      user ← get_user_email (lf_email f);
      match user with
      | Some user =>
          if check_password_hash (User.password (row user)) (lf_password f) then
            ok ← login_user user;
            if (ok : bool) then mret (redirect ep_get_all_posts)
            else render login_jinja
          else
            flash "Password invalid. Try again." "warning";;
            render login_jinja
      | None =>
          flash "Email does not exist. Try again." "warning";;
          render login_jinja
      end
  | None => render login_jinja
  end.

(** [logout]. *)
Definition logout : M response :=
  login_required (logout_user;; mret (redirect ep_get_all_posts)).

(** [get_all_posts]: [db.select(BlogPost)], with no [order_by]. *)
Definition get_all_posts : M response :=
  w ← get_world;
  render (index_jinja (scan (blog_posts (db w)))).

(** [show_post].  [current_user.is_anonymous()] reads the property and
    calls its value. *)
Definition show_post (post_id : Z) (form : option CommentForm) : M response :=
  requested_post ← get_or_404 blog_posts post_id;
  match form with
  | Some f =>
      cu ← current_user;
      anonymous ← call_bool (is_anonymous cu);
      if (anonymous : bool) then
        flash "You must be logged in to comment." "email";;
        mret (redirect ep_login)
      else
        id ← getattr_id cu;
        db_add (a_Comment (Comment.mk (cf_body f) id post_id));;
        render (post_jinja requested_post)
  | None => render (post_jinja requested_post)
  end.

(** [add_new_post]. *)
Definition add_new_post (env : Env) (form : option CreatePostForm) : M response :=
  admin_only (
    match form with
    | Some f =>
        cu ← current_user;
        author ← as_mapped cu;
        let new_post :=
          BlogPost.mk (pf_title f) (pf_subtitle f)
            (today_strftime env "%B %d, %Y")
            (pf_body f) (pf_img_url f) (pk author) in
        commit_add (a_BlogPost new_post);;
        mret (redirect ep_get_all_posts)
    | None => render (make_post_html false)
    end).

(** [edit_post]. *)
Definition edit_post (post_id : Z) (form : option CreatePostForm) : M response :=
  admin_only (
    post ← get_or_404 blog_posts post_id;
    match form with
    | Some f =>
        cu ← current_user;
        author ← as_mapped cu;
        let edited :=
          BlogPost.mk (pf_title f) (pf_subtitle f)
            (BlogPost.date (row post))
            (pf_body f) (pf_img_url f) (pk author) in
        commit_update_post (pk post) edited;;
        mret (redirect (ep_show_post (pk post)))
    | None => render (make_post_html true)
    end).

(** [delete_post]. *)
Definition delete_post (post_id : Z) : M response :=
  admin_only (
    post_to_delete ← get_or_404 blog_posts post_id;
    commit_delete_post (pk post_to_delete);;
    mret (redirect ep_get_all_posts)).

(** [about] and [contact]. *)
Definition about : M response := render about_html.
Definition contact : M response := render contact_html.

End App.

(** ** The routes ([@app.route])

    A request that the URL map accepts: the rule it matches, the value of
    an [<int:post_id>] segment (Flask's [int] converter accepts the
    non-negative integers), and for the rules that build a form the
    outcome of [validate_on_submit()] as before.  [/logout], [/],
    [/delete/<id>], [/about] and [/contact] accept GET only. *)
Inductive request :=
  | to_register (form : option RegisterForm)
  | to_login (form : option LoginForm)
  | to_logout
  | to_get_all_posts
  | to_show_post (post_id : N) (form : option CommentForm)
  | to_add_new_post (form : option CreatePostForm)
  | to_edit_post (post_id : N) (form : option CreatePostForm)
  | to_delete_post (post_id : N)
  | to_about
  | to_contact.

Section Routes.
Context `{hasher : PasswordHasher} `{scanner : TableScan}.

(** The view function each rule is bound to. *)
Definition route (env : Env) (r : request) : M response :=
  match r with
  | to_register form => register env form
  | to_login form => login form
  | to_logout => logout
  | to_get_all_posts => get_all_posts
  | to_show_post post_id form => show_post (Z.of_N post_id) form
  | to_add_new_post form => add_new_post env form
  | to_edit_post post_id form => edit_post (Z.of_N post_id) form
  | to_delete_post post_id => delete_post (Z.of_N post_id)
  | to_about => about
  | to_contact => contact
  end.

(** One request served: the response and the world it leaves. *)
Definition serve (env : Env) (r : request) (w : World) : response * World :=
  dispatch (route env r) w.


(** The stores the application can bring about: it starts from the empty
    tables of [db.create_all()], and each request is served with whatever
    session cookie, pending flashes, clock and randomness it comes with. *)
Inductive reachable : Store → Prop :=
  | reachable_create_all : reachable (mkStore ∅ ∅ ∅)
  | reachable_serve (s : Store) (c : option Z) (fl : list (string * string))
      (env : Env) (r : request) :
      reachable s → reachable (db (serve env r (mkWorld s c fl)).2).

End Routes.

(** ** What the schema declares

    [unique=True] on [users.email] and on [blog_posts.title], and the three
    [ForeignKey] columns. *)
Record store_ok (s : Store) : Prop := mk_store_ok {
  emails_unique : ∀ k1 k2 u1 u2,
    users s !! k1 = Some u1 → users s !! k2 = Some u2 →
    User.email u1 = User.email u2 → k1 = k2;
  titles_unique : ∀ k1 k2 p1 p2,
    blog_posts s !! k1 = Some p1 → blog_posts s !! k2 = Some p2 →
    BlogPost.title p1 = BlogPost.title p2 → k1 = k2;
  post_author_exists : ∀ k p,
    blog_posts s !! k = Some p → is_Some (users s !! BlogPost.user_id p);
  comment_author_exists : ∀ k c,
    comments s !! k = Some c → is_Some (users s !! Comment.user_id c);
  comment_post_exists : ∀ k c,
    comments s !! k = Some c → is_Some (blog_posts s !! Comment.post_id c) }.

(** The session cookie names a user of the store, or there is none. *)
Definition session_valid (w : World) : Prop :=
  ∀ user_id, session w = Some user_id → is_Some (users (db w) !! user_id).

(** The ways a request can change the store, read off the handlers: a
    registration adds a user with an unused email; the administrator adds a
    post with an unused title, rewrites a post, or deletes a post that has
    no comment. *)
Inductive store_step (w : World) : Store → Prop :=
  | step_none : store_step w (db w)
  | step_register (u : User.t) :
      (∀ k u', users (db w) !! k = Some u' → User.email u' ≠ User.email u) →
      store_step w (set_users (<[next_id (users (db w)) := u]> (users (db w))) (db w))
  | step_add_post (admin : User.t) (p : BlogPost.t) :
      session w = Some 1 → users (db w) !! 1 = Some admin →
      BlogPost.user_id p = 1 →
      (∀ k q, blog_posts (db w) !! k = Some q → BlogPost.title q ≠ BlogPost.title p) →
      store_step w
        (set_blog_posts (<[next_id (blog_posts (db w)) := p]> (blog_posts (db w))) (db w))
  | step_edit_post (admin : User.t) (id : Z) (old p : BlogPost.t) :
      session w = Some 1 → users (db w) !! 1 = Some admin →
      blog_posts (db w) !! id = Some old →
      BlogPost.user_id p = 1 → BlogPost.date p = BlogPost.date old →
      (∀ k q, k ≠ id → blog_posts (db w) !! k = Some q →
              BlogPost.title q ≠ BlogPost.title p) →
      store_step w (set_blog_posts (<[id := p]> (blog_posts (db w))) (db w))
  | step_delete_post (admin : User.t) (id : Z) (old : BlogPost.t) :
      session w = Some 1 → users (db w) !! 1 = Some admin →
      blog_posts (db w) !! id = Some old →
      (∀ k c, comments (db w) !! k = Some c → Comment.post_id c ≠ id) →
      store_step w (set_blog_posts (delete id (blog_posts (db w))) (db w)).


(** The requests that submit no valid form and are neither [/logout] nor
    [/delete/<id>]. *)
Definition read_only (r : request) : bool :=
  match r with
  | to_register None | to_login None | to_get_all_posts | to_show_post _ None
  | to_add_new_post None | to_edit_post _ None | to_about | to_contact => true
  | _ => false
  end.

#[global] Instance by_id_total {A} : Total (@by_id A).
Proof. intros a b. unfold by_id. lia. Qed.

(** ** A scenario to run the handlers on

    Alice registers first and is the administrator (id 1), Bob second
    (id 2); Alice has posted "Hello" and Bob's comment on it is in the
    store. *)

Module Scenario.

(** A hash function to evaluate the handlers with.  It keeps the secret
    in the digest and ignores the salt: it stands in for werkzeug's only
    where a concrete function is needed to compute. *)
#[export] Instance plain_hasher : PasswordHasher := {|
  generate_password_hash secret method salt_length salt :=
    method +:+ "$" +:+ secret;
  check_password_hash digest candidate :=
    bool_decide (digest = "pbkdf2:sha256$" +:+ candidate) |}.

#[export] Instance plain_hasher_laws : PasswordHasherLaws.
Proof. split. intros secret salt. by apply bool_decide_eq_true. Qed.

(** The store returns rows by ascending id (as SQLite does). *)
#[export] Instance by_id_scan : TableScan := {|
  scan A := rows;
  scan_all A t := merge_sort_Permutation by_id (map_to_list t) |}.

Definition env0 : Env := mkEnv (λ _, "November 03, 2026") "salt".

Definition alice_form : RegisterForm := mkRegisterForm "Alice" "alice@example.com" "pw1".
Definition bob_form : RegisterForm := mkRegisterForm "Bob" "bob@example.com" "pw2".
Definition hello_form : CreatePostForm :=
  mkCreatePostForm "Hello" "A first post" "https://example.com/hello.png" "<p>Hello</p>".

Definition alice : User.t :=
  User.mk "Alice" "alice@example.com" (hash env0 "pw1").
Definition bob : User.t :=
  User.mk "Bob" "bob@example.com" (hash env0 "pw2").
Definition hello : BlogPost.t :=
  BlogPost.mk "Hello" "A first post" "November 03, 2026" "<p>Hello</p>"
    "https://example.com/hello.png" 1.
Definition bobs_comment : Comment.t := Comment.mk "Nice post" 2 1.

Definition two_users : gmap Z User.t := <[2 := bob]> {[1 := alice]}.

Definition store_empty : Store := mkStore ∅ ∅ ∅.
Definition store_users : Store := mkStore two_users ∅ ∅.
Definition store_posted : Store := mkStore two_users {[1 := hello]} ∅.
Definition store_commented : Store :=
  mkStore two_users {[1 := hello]} {[1 := bobs_comment]}.

(** Requests by a visitor without a session, by Alice, and by Bob. *)
Definition visitor (s : Store) : World := mkWorld s None [].
Definition as_alice (s : Store) : World := mkWorld s (Some 1) [].
Definition as_bob (s : Store) : World := mkWorld s (Some 2) [].

(** A session function that refuses, as [login_user] does for a user that
    is not active. *)
Definition refuse (user : entity User.t) : M bool := mret false.

End Scenario.

(** More of the scenario: Alice rewrites her post. *)
Module Rewrite.
Import Scenario.

Definition again_form : CreatePostForm :=
  mkCreatePostForm "Hello again" "A second look" "https://example.com/again.png"
    "<p>Hello again</p>".
Definition again : BlogPost.t :=
  BlogPost.mk "Hello again" "A second look" "November 03, 2026" "<p>Hello again</p>"
    "https://example.com/again.png" 1.
Definition store_alice : Store := mkStore {[1 := alice]} ∅ ∅.
Definition store_alice_posted : Store := mkStore {[1 := alice]} {[1 := hello]} ∅.

End Rewrite.

(** A step of a proof about the session: it is the one before. *)
Ltac keeps_session := left; simpl; congruence.

(** A step of a proof about the store: the request left it as it was.
    The rewrite database [world] collects what leaves the world alone. *)
Create Rewrite HintDb world.

Ltac unchanged :=
  simpl; autorewrite with world; simpl;
  match goal with |- store_step ?w _ => exact (step_none w) end.

(** The same for the session, after a page was rendered. *)
Ltac same_session := left; simpl; autorewrite with world; reflexivity.

(** A step of a proof about a handler: open the monad's operations. *)
Ltac unfold_monad :=
  unfold mbind, mret, M_bind, M_ret, bind, ret, raise, abort, get_world, modify in *.

(** * Properties *)

(** ** The store

    A fresh key is fresh, [rows] lists exactly the table, and [has_value]
    decides whether a column holds a value. *)

Lemma foldr_max_ge (l : list Z) (k : Z) : k ∈ l → k ≤ foldr Z.max 0 l.
Proof.
  induction l as [|x l IH]; intros Hk.
  - by apply elem_of_nil in Hk.
  - apply elem_of_cons in Hk as [->|Hk]; simpl; [lia|].
    specialize (IH Hk). lia.
Qed.

Lemma next_id_fresh {A} (t : gmap Z A) : t !! next_id t = None.
Proof.
  destruct (t !! next_id t) as [r|] eqn:E; [|done].
  assert (next_id t ∈ (map_to_list t).*1) as Hin.
  { apply list_elem_of_fmap. exists (next_id t, r). split; [done|].
    by apply elem_of_map_to_list. }
  apply foldr_max_ge in Hin. unfold next_id in Hin at 1. lia.
Qed.

Lemma elem_of_rows {A} (t : gmap Z A) (k : Z) (r : A) :
  (k, r) ∈ rows t ↔ t !! k = Some r.
Proof.
  unfold rows. rewrite merge_sort_Permutation. apply elem_of_map_to_list.
Qed.

Lemma has_value_true {A B} `{EqDecision B} (col : A → B) (v : B) (t : gmap Z A) :
  has_value col v t = true ↔ ∃ k r, t !! k = Some r ∧ col r = v.
Proof.
  unfold has_value. rewrite bool_decide_eq_true, list_elem_of_fmap. split.
  - intros (r & -> & Hr). apply list_elem_of_fmap in Hr as ([k r'] & -> & Hkr).
    apply elem_of_map_to_list in Hkr. eauto.
  - intros (k & r & Hk & <-). exists r. split; [done|].
    apply list_elem_of_fmap. exists (k, r). split; [done|].
    by apply elem_of_map_to_list.
Qed.

Lemma has_value_false {A B} `{EqDecision B} (col : A → B) (v : B) (t : gmap Z A) :
  has_value col v t = false ↔ ∀ k r, t !! k = Some r → col r ≠ v.
Proof.
  rewrite <- not_true_iff_false, has_value_true. split.
  - intros Hn k r Hk Hc. apply Hn. eauto.
  - intros Hn (k & r & Hk & Hc). by apply (Hn k r).
Qed.

Lemma email_listed (t : gmap Z User.t) (e : string) :
  bool_decide (e ∈ (λ u : entity User.t, User.email (row u)) <$> rows t)
  = has_value User.email e t.
Proof.
  apply eq_true_iff_eq. rewrite has_value_true, bool_decide_eq_true, list_elem_of_fmap.
  split.
  - intros ([k r] & -> & Hr). apply elem_of_rows in Hr. eauto.
  - intros (k & r & Hk & <-). exists (k, r). split; [done|]. by apply elem_of_rows.
Qed.

(** ** What each handler computes

    One equation per handler: the result and the world it leaves, by cases
    on the session and the store.  The claims below are read off these. *)

Section Run.
Context `{hasher : PasswordHasher} `{scanner : TableScan}.

Lemma get_or_404_run {A} (table : Store → gmap Z A) (id : Z) (w : World) :
  get_or_404 table id w =
  match table (db w) !! id with
  | Some r => (Ok (id, r), w)
  | None => (Raise (HTTPException 404), w)
  end.
Proof. unfold get_or_404. unfold_monad. by destruct (table (db w) !! id). Qed.

Lemma user_loader_run (user_id : Z) (w : World) :
  user_loader user_id w =
  match users (db w) !! user_id with
  | Some r => (Ok (Some (user_id, r)), w)
  | None => (Raise (HTTPException 404), w)
  end.
Proof.
  unfold user_loader, get_user. unfold mbind, M_bind, bind.
  rewrite get_or_404_run. by destruct (users (db w) !! user_id).
Qed.

Lemma current_user_run (w : World) :
  current_user w =
  match session w with
  | None => (Ok AnonymousUserMixin, w)
  | Some user_id =>
      match users (db w) !! user_id with
      | Some r => (Ok (a_user (user_id, r)), w)
      | None => (Raise (HTTPException 404), w)
      end
  end.
Proof.
  unfold current_user. unfold mbind, M_bind, bind at 1, get_world.
  destruct (session w) as [user_id|]; [|done].
  unfold bind. rewrite user_loader_run. by destruct (users (db w) !! user_id).
Qed.

Lemma render_run (t : template) (w : World) :
  render t w =
  match session w with
  | None => (Ok (render_template t), w)
  | Some user_id =>
      match users (db w) !! user_id with
      | Some _ => (Ok (render_template t), w)
      | None => (Raise (HTTPException 404), w)
      end
  end.
Proof.
  unfold render. unfold mbind, M_bind, bind. rewrite current_user_run.
  destruct (session w) as [user_id|]; [|done].
  by destruct (users (db w) !! user_id).
Qed.

(** When the session names a user of the store, or there is none, the
    page is rendered. *)
Lemma render_valid (t : template) (w : World) :
  session_valid w → render t w = (Ok (render_template t), w).
Proof.
  intros Hvalid. rewrite render_run.
  destruct (session w) as [user_id|] eqn:Hs; [|done].
  by destruct (Hvalid user_id Hs) as [u ->].
Qed.

Lemma render_logged_in (t : template) (w : World) (user_id : Z) (u : User.t) :
  session w = Some user_id → users (db w) !! user_id = Some u →
  render t w = (Ok (render_template t), w).
Proof. intros Hs Hu. by rewrite render_run, Hs, Hu. Qed.

Lemma render_world (t : template) (w : World) : (render t w).2 = w.
Proof.
  rewrite render_run. destruct (session w) as [user_id|]; [|done].
  by destruct (users (db w) !! user_id).
Qed.

(** The dispatcher turns an exception into a status and leaves the world
    the handler left. *)
Lemma dispatch_world (h : M response) (w : World) : (dispatch h w).2 = (h w).2.
Proof. unfold dispatch. by destruct (h w) as [[r|[]] w']. Qed.

Lemma elem_of_scan {A} (t : gmap Z A) (k : Z) (r : A) :
  (k, r) ∈ scan t ↔ t !! k = Some r.
Proof. rewrite scan_all. apply elem_of_map_to_list. Qed.

Lemma admin_only_run (function : M response) (w : World) :
  admin_only function w =
  match session w with
  | None => (Raise AttributeError, w)
  | Some user_id =>
      match users (db w) !! user_id with
      | Some _ =>
          if bool_decide (user_id = 1) then function w
          else (Raise (HTTPException 403), w)
      | None => (Raise (HTTPException 404), w)
      end
  end.
Proof.
  unfold admin_only. unfold mbind, M_bind, bind at 1.
  rewrite current_user_run.
  destruct (session w) as [user_id|]; [|done].
  destruct (users (db w) !! user_id); [|done].
  unfold bind, getattr_id, mret, M_ret, ret, pk; simpl.
  by destruct (bool_decide (user_id = 1)).
Qed.

Lemma login_required_run (function : M response) (w : World) :
  login_required function w =
  match session w with
  | None => (Raise (HTTPException 401), w)
  | Some user_id =>
      match users (db w) !! user_id with
      | Some _ => function w
      | None => (Raise (HTTPException 404), w)
      end
  end.
Proof.
  unfold login_required. unfold mbind, M_bind, bind at 1.
  rewrite current_user_run.
  destruct (session w) as [user_id|]; [|done].
  by destruct (users (db w) !! user_id).
Qed.

Lemma show_post_run (post_id : Z) (form : option CommentForm) (w : World) :
  show_post post_id form w =
  match blog_posts (db w) !! post_id with
  | None => (Raise (HTTPException 404), w)
  | Some p =>
      match form with
      | None => render (post_jinja (post_id, p)) w
      | Some _ =>
          match session w with
          | None => (Raise TypeError, w)
          | Some user_id =>
              match users (db w) !! user_id with
              | Some _ => (Raise TypeError, w)
              | None => (Raise (HTTPException 404), w)
              end
          end
      end
  end.
Proof.
  unfold show_post. unfold mbind, M_bind, bind at 1.
  rewrite get_or_404_run.
  destruct (blog_posts (db w) !! post_id) as [p|]; [|done].
  destruct form as [f|]; [|done].
  unfold bind at 1. rewrite current_user_run.
  destruct (session w) as [user_id|]; [|done].
  by destruct (users (db w) !! user_id).
Qed.


Lemma add_new_post_run (env : Env) (f : CreatePostForm) (w : World) :
  add_new_post env (Some f) w =
  match session w with
  | None => (Raise AttributeError, w)
  | Some user_id =>
      match users (db w) !! user_id with
      | Some _ =>
          if bool_decide (user_id = 1) then
            let new_post :=
              BlogPost.mk (pf_title f) (pf_subtitle f) (today_strftime env "%B %d, %Y")
                (pf_body f) (pf_img_url f) user_id in
            if has_value BlogPost.title (pf_title f) (blog_posts (db w))
            then (Raise IntegrityError, w)
            else (Ok (redirect ep_get_all_posts),
                  set_db (set_blog_posts
                    (<[next_id (blog_posts (db w)) := new_post]> (blog_posts (db w))) (db w)) w)
          else (Raise (HTTPException 403), w)
      | None => (Raise (HTTPException 404), w)
      end
  end.
Proof.
  unfold add_new_post. rewrite admin_only_run.
  destruct (session w) as [user_id|] eqn:Hs; [|done].
  destruct (users (db w) !! user_id) as [u|] eqn:Hu; [|done].
  destruct (bool_decide (user_id = 1)); [|done].
  unfold mbind, M_bind, bind at 1. rewrite current_user_run, Hs, Hu.
  unfold bind at 1, as_mapped, mret, M_ret, ret. unfold commit_add. unfold_monad. simpl.
  by destruct (has_value BlogPost.title (pf_title f) (blog_posts (db w))).
Qed.

Lemma delete_post_run (post_id : Z) (w : World) :
  delete_post post_id w =
  match session w with
  | None => (Raise AttributeError, w)
  | Some user_id =>
      match users (db w) !! user_id with
      | Some _ =>
          if bool_decide (user_id = 1) then
            match blog_posts (db w) !! post_id with
            | None => (Raise (HTTPException 404), w)
            | Some _ =>
                if has_value Comment.post_id post_id (comments (db w))
                then (Raise IntegrityError, w)
                else (Ok (redirect ep_get_all_posts),
                      set_db (set_blog_posts (delete post_id (blog_posts (db w))) (db w)) w)
            end
          else (Raise (HTTPException 403), w)
      | None => (Raise (HTTPException 404), w)
      end
  end.
Proof.
  unfold delete_post. rewrite admin_only_run.
  destruct (session w) as [user_id|] eqn:Hs; [|done].
  destruct (users (db w) !! user_id) as [u|] eqn:Hu; [|done].
  destruct (bool_decide (user_id = 1)); [|done].
  unfold mbind, M_bind, bind at 1. rewrite get_or_404_run.
  destruct (blog_posts (db w) !! post_id) as [p|]; [|done].
  unfold commit_delete_post. unfold_monad. simpl.
  by destruct (has_value Comment.post_id post_id (comments (db w))).
Qed.

Lemma get_user_email_run (email : string) (w : World) :
  get_user_email email w =
  (Ok (head (filter (λ u : entity User.t, User.email (row u) = email) (scan (users (db w))))), w).
Proof. done. Qed.

Lemma get_user_email_Some (email : string) (w : World) (u : entity User.t) :
  get_user_email email w = (Ok (Some u), w) →
  users (db w) !! pk u = Some (row u) ∧ User.email (row u) = email.
Proof.
  rewrite get_user_email_run. intros [= Hh].
  apply head_Some_elem_of, list_elem_of_filter in Hh as [He Hin].
  destruct u as [k r]. by apply elem_of_scan in Hin.
Qed.

Lemma commit_add_user_run (u : User.t) (w : World) :
  commit_add (a_User u) w =
  if has_value User.email (User.email u) (users (db w)) then (Raise IntegrityError, w)
  else (Ok (next_id (users (db w))),
        set_db (set_users (<[next_id (users (db w)) := u]> (users (db w))) (db w)) w).
Proof.
  unfold commit_add. unfold_monad.
  by destruct (has_value User.email (User.email u) (users (db w))).
Qed.

Lemma register_with_run (establish : entity User.t → M bool) (env : Env)
    (f : RegisterForm) (w : World) :
  register_with establish env (Some f) w =
  let user := User.mk (rf_name f) (rf_email f) (hash env (rf_password f)) in
  if has_value User.email (rf_email f) (users (db w)) then
    (Ok (redirect ep_login), add_flash ("The email is already registered.", "email") w)
  else
    let id := next_id (users (db w)) in
    (ok ← establish (id, user);
     if (ok : bool) then mret (redirect ep_get_all_posts)
     else render register_jinja)
      (set_db (set_users (<[id := user]> (users (db w))) (db w)) w).
Proof.
  unfold register_with, get_users, db_add, flash.
  unfold mbind at 1 2, M_bind, bind at 1 2, get_world, mret at 1, M_ret, ret at 1. simpl.
  rewrite email_listed.
  destruct (has_value User.email (rf_email f) (users (db w))) eqn:E; [done|].
  unfold mbind at 1, bind at 1. rewrite commit_add_user_run. simpl. by rewrite E.
Qed.

Lemma login_run (f : LoginForm) (w : World) :
  login (Some f) w =
  match head (filter (λ u : entity User.t, User.email (row u) = lf_email f)
                (scan (users (db w)))) with
  | Some user =>
      if check_password_hash (User.password (row user)) (lf_password f)
      then (Ok (redirect ep_get_all_posts), set_session (Some (pk user)) w)
      else render login_jinja (add_flash ("Password invalid. Try again.", "warning") w)
  | None => render login_jinja (add_flash ("Email does not exist. Try again.", "warning") w)
  end.
Proof.
  unfold login. unfold mbind at 1, M_bind, bind at 1. rewrite get_user_email_run.
  destruct (head _) as [user|]; [|done].
  by destruct (check_password_hash _ _).
Qed.

Lemma logout_run (w : World) :
  logout w =
  match session w with
  | None => (Raise (HTTPException 401), w)
  | Some user_id =>
      match users (db w) !! user_id with
      | Some _ => (Ok (redirect ep_get_all_posts), set_session None w)
      | None => (Raise (HTTPException 404), w)
      end
  end.
Proof. unfold logout. by rewrite login_required_run. Qed.

End Run.

#[global] Hint Rewrite render_world : world.

(** ** The authorization gate and the session loader *)

Section Claims.
Context `{hasher : PasswordHasher} `{scanner : TableScan}.

(** X1.  A logged-in user other than user 1 is refused by [admin_only]
    with 403, whatever the wrapped handler is, and nothing changes. *)
Lemma admin_only_other_user_403 (function : M response) (w : World)
    (user_id : Z) (u : User.t) :
  session w = Some user_id → users (db w) !! user_id = Some u → user_id ≠ 1 →
  dispatch (admin_only function) w = (error_response 403, w).
Proof.
  intros Hs Hu Hne. unfold dispatch. rewrite admin_only_run, Hs, Hu.
  by rewrite bool_decide_eq_false_2.
Qed.

(** C1, at the requests where the code departs from it.  A request to
    the create-post, edit-post or delete-post handler that carries no
    session, so that the principal is anonymous, is answered with 500 and
    not with 403: [admin_only] reads [current_user.id], which the anonymous
    principal does not have.  The world, and so the store, is unchanged. *)
Theorem admin_only_anonymous_500 :
  ∀ (env : Env) (form : option CreatePostForm) (post_id : Z)
    (s : Store) (fl : list (string * string)),
    let w := mkWorld s None fl in
    dispatch (add_new_post env form) w = (error_response 500, w) ∧
    dispatch (edit_post post_id form) w = (error_response 500, w) ∧
    dispatch (delete_post post_id) w = (error_response 500, w).
Proof.
  intros env form post_id s fl w.
  unfold dispatch, add_new_post, edit_post, delete_post.
  by rewrite !admin_only_run.
Qed.

(** C2, at the tokens where the code departs from it.  When the session
    carries an id that no row of the users table has, [user_loader] does
    not return [None]: [get_user] aborts with 404, [current_user] passes
    the exception on, and a handler that reads the principal (here
    [logout]) answers 404. *)
Theorem user_loader_unknown_id_404 :
  ∀ (user_id : Z) (s : Store) (fl : list (string * string)),
    let w := mkWorld (set_users (delete user_id (users s)) s) (Some user_id) fl in
    user_loader user_id w = (Raise (HTTPException 404), w) ∧
    current_user w = (Raise (HTTPException 404), w) ∧
    dispatch logout w = (error_response 404, w).
Proof.
  intros user_id s fl w. unfold dispatch.
  rewrite user_loader_run, current_user_run, logout_run. simpl.
  by rewrite lookup_delete_eq.
Qed.

(** ** Comments *)

(** C3, where the code departs from it.  A valid comment submission to an
    existing post by a visitor without a session is answered with 500:
    [current_user.is_anonymous()] calls the value of a property, a [bool].
    There is no flash and no redirect to the login page; no comment is
    stored (the world is unchanged). *)
Theorem show_post_anonymous_comment_500 :
  ∀ (post_id : Z) (p : BlogPost.t) (f : CommentForm) (s : Store)
    (fl : list (string * string)),
    let w := mkWorld (set_blog_posts (<[post_id := p]> (blog_posts s)) s) None fl in
    dispatch (show_post post_id (Some f)) w = (error_response 500, w).
Proof.
  intros post_id p f s fl w. unfold dispatch. rewrite show_post_run. simpl.
  by rewrite lookup_insert_eq.
Qed.

(** C4, where the code departs from it.  A valid comment submission to an
    existing post by a logged-in user is answered with 500 as well, for the
    same call of [is_anonymous]: no comment is stored and the post is not
    rendered. *)
Theorem show_post_logged_in_comment_500 :
  ∀ (post_id : Z) (p : BlogPost.t) (user_id : Z) (u : User.t) (f : CommentForm)
    (s : Store) (fl : list (string * string)),
    let w := mkWorld
               (mkStore (<[user_id := u]> (users s))
                        (<[post_id := p]> (blog_posts s)) (comments s))
               (Some user_id) fl in
    dispatch (show_post post_id (Some f)) w = (error_response 500, w).
Proof.
  intros post_id p user_id u f s fl w. unfold dispatch. rewrite show_post_run. simpl.
  by rewrite !lookup_insert_eq.
Qed.

(** ** Registration and login *)

(** C5.  A registration whose email is the email of a user in the store
    flashes "The email is already registered." and redirects to login; the
    store is the one before, so no second row exists.  The check looks at
    the rows of the store only: when no row has the email, the
    registration is not rejected; the user is stored under a fresh id,
    logged in, and redirected to the post list. *)
Theorem register_duplicate_email (env : Env) (f : RegisterForm) (w : World) :
  ((∃ k u, users (db w) !! k = Some u ∧ User.email u = rf_email f) →
     dispatch (register env (Some f)) w =
       (redirect ep_login, add_flash ("The email is already registered.", "email") w)) ∧
  ((∀ k u, users (db w) !! k = Some u → User.email u ≠ rf_email f) →
     let id := next_id (users (db w)) in
     let user := User.mk (rf_name f) (rf_email f) (hash env (rf_password f)) in
     users (db w) !! id = None ∧
     dispatch (register env (Some f)) w =
       (redirect ep_get_all_posts,
        set_session (Some id)
          (set_db (set_users (<[id := user]> (users (db w))) (db w)) w))).
Proof.
  unfold dispatch, register. rewrite register_with_run. split.
  - intros Hdup. apply (has_value_true User.email) in Hdup. simpl. by rewrite Hdup.
  - intros Hfresh. apply (has_value_false User.email) in Hfresh. simpl.
    rewrite Hfresh. split; [apply next_id_fresh | done].
Qed.

(** The store finds a user by email when the table has one row with that
    email and no other. *)
Lemma get_user_email_unique (email : string) (w : World) (k : Z) (r : User.t) :
  users (db w) !! k = Some r → User.email r = email →
  (∀ k' r', users (db w) !! k' = Some r' → User.email r' = email → k' = k) →
  get_user_email email w = (Ok (Some (k, r)), w).
Proof.
  intros Hk He Huniq. rewrite get_user_email_run.
  destruct (head _) as [[k' r']|] eqn:Hh.
  - apply head_Some_elem_of, list_elem_of_filter in Hh as [He' Hin].
    apply elem_of_scan in Hin. simpl in He'.
    assert (k' = k) as -> by eauto.
    rewrite Hk in Hin. by injection Hin as ->.
  - apply head_None in Hh.
    assert ((k, r) ∈ filter (λ u : entity User.t, User.email (row u) = email)
                      (scan (users (db w)))) as Hin.
    { apply list_elem_of_filter. split; [done|]. by apply elem_of_scan. }
    rewrite Hh in Hin. by apply elem_of_nil in Hin.
Qed.

(** The store finds no user by email when no row has that email. *)
Lemma get_user_email_none (email : string) (w : World) :
  (∀ k r, users (db w) !! k = Some r → User.email r ≠ email) →
  get_user_email email w = (Ok None, w).
Proof.
  intros Hnone. rewrite get_user_email_run.
  destruct (head _) as [[k r]|] eqn:Hh; [|done].
  apply head_Some_elem_of, list_elem_of_filter in Hh as [He Hin].
  apply elem_of_scan in Hin. by apply Hnone in Hin.
Qed.

(** C6.  Let [u], stored under [k], be the one user of the store with the
    submitted email.  If [u]'s digest was made by [hash] from the submitted
    password, the login redirects to the post list and leaves a session
    whose principal is [u].  If the digest rejects the submitted password,
    "Password invalid. Try again." is flashed and nothing else changes: the
    session is the one before.  If no user of the store has the email,
    "Email does not exist. Try again." is flashed and nothing else changes.
    In both failures the login page is what is answered when the request's
    own session names a user of the store or there is none (rendering a
    page loads the principal, see C2). *)
Theorem login_registered_user `{!PasswordHasherLaws} (w : World) (email password : string) :
  (∀ k u, users (db w) !! k = Some u → User.email u = email →
      (∀ k' u', users (db w) !! k' = Some u' → User.email u' = email → k' = k) →
      (∀ env, User.password u = hash env password →
         let w' := set_session (Some k) w in
         dispatch (login (Some (mkLoginForm email password))) w
           = (redirect ep_get_all_posts, w') ∧
         current_user w' = (Ok (a_user (k, u)), w')) ∧
      (check_password_hash (User.password u) password = false →
         let w' := add_flash ("Password invalid. Try again.", "warning") w in
         (dispatch (login (Some (mkLoginForm email password))) w).2 = w' ∧
         session w' = session w ∧
         (session_valid w →
            dispatch (login (Some (mkLoginForm email password))) w
              = (render_template login_jinja, w')))) ∧
  ((∀ k u, users (db w) !! k = Some u → User.email u ≠ email) →
      let w' := add_flash ("Email does not exist. Try again.", "warning") w in
      (dispatch (login (Some (mkLoginForm email password))) w).2 = w' ∧
      session w' = session w ∧
      (session_valid w →
         dispatch (login (Some (mkLoginForm email password))) w
           = (render_template login_jinja, w'))).
Proof.
  split.
  - intros k u Hk He Huniq.
    pose proof (get_user_email_unique email w k u Hk He Huniq) as Hfind.
    rewrite get_user_email_run in Hfind. injection Hfind as Hfind.
    rewrite dispatch_world. unfold dispatch. rewrite login_run. simpl.
    rewrite Hfind. simpl. split.
    + intros env Hpw. rewrite Hpw. unfold hash. rewrite check_generate.
      split; [done|]. rewrite current_user_run. simpl. by rewrite Hk.
    + intros Hbad. rewrite Hbad. split; [apply render_world|]. split; [done|].
      intros Hvalid. by rewrite render_valid.
  - intros Hnone.
    pose proof (get_user_email_none email w Hnone) as Hfind.
    rewrite get_user_email_run in Hfind. injection Hfind as Hfind.
    rewrite dispatch_world. unfold dispatch. rewrite login_run. simpl.
    rewrite Hfind. split; [apply render_world|]. split; [done|].
    intros Hvalid. by rewrite render_valid.
Qed.

(** X3.  Register, then log in: after a registration with a fresh email,
    a login with the same email and password against the store the
    registration left, whatever the session and the flashed messages of
    the later request, redirects to the post list with the new user's id
    in the session. *)
Lemma register_then_login `{!PasswordHasherLaws} (env : Env) (f : RegisterForm)
    (w : World) (c : option Z) (fl : list (string * string)) :
  (∀ k u, users (db w) !! k = Some u → User.email u ≠ rf_email f) →
  let w2 := mkWorld (db (dispatch (register env (Some f)) w).2) c fl in
  dispatch (login (Some (mkLoginForm (rf_email f) (rf_password f)))) w2 =
    (redirect ep_get_all_posts, set_session (Some (next_id (users (db w)))) w2).
Proof.
  intros Hfresh w2.
  set (id := next_id (users (db w))).
  set (user := User.mk (rf_name f) (rf_email f) (hash env (rf_password f))).
  assert (users (db w2) = <[id := user]> (users (db w))) as Hw2.
  { subst w2. unfold dispatch, register. rewrite register_with_run.
    apply (has_value_false User.email) in Hfresh. simpl. by rewrite Hfresh. }
  assert (get_user_email (rf_email f) w2 = (Ok (Some (id, user)), w2)) as Hfind.
  { apply get_user_email_unique; rewrite ?Hw2.
    - apply lookup_insert_eq.
    - done.
    - intros k' r' Hk' He'. destruct (decide (k' = id)) as [->|Hne]; [done|].
      rewrite lookup_insert_ne in Hk' by done. by apply Hfresh in Hk'. }
  rewrite get_user_email_run in Hfind. injection Hfind as Hfind.
  unfold dispatch. rewrite login_run. simpl. rewrite Hfind. simpl.
  unfold hash. by rewrite check_generate.
Qed.

(** ** Posts *)

(** X2.  The administrator's submission of a post with an unused title
    succeeds. *)
Lemma add_new_post_succeeds (env : Env) (f : CreatePostForm) (w : World) (admin : User.t) :
  session w = Some 1 → users (db w) !! 1 = Some admin →
  (∀ k p, blog_posts (db w) !! k = Some p → BlogPost.title p ≠ pf_title f) →
  ∃ w', dispatch (add_new_post env (Some f)) w = (redirect ep_get_all_posts, w').
Proof.
  intros Hs Hu Hfresh. apply (has_value_false BlogPost.title) in Hfresh.
  unfold dispatch. rewrite add_new_post_run, Hs, Hu. simpl. rewrite Hfresh. eauto.
Qed.

(** C7.  When a submission of the fields [f] to [add_new_post] creates a
    post (the handler answers with the redirect to the post list, which it
    does only after the commit), the request was made by the principal
    [author] with id 1, the post has an id that was not in use, and
    fetching that id afterwards renders a post with the title, subtitle,
    body and image URL of [f], with [author] as its author, and with the
    date the server's clock gave, formatted by "%B %d, %Y". *)
Theorem add_new_post_round_trip (env : Env) (f : CreatePostForm) (w w' : World) :
  dispatch (add_new_post env (Some f)) w = (redirect ep_get_all_posts, w') →
  ∃ (id : Z) (author : entity User.t),
    current_user w = (Ok (a_user author), w) ∧ pk author = 1 ∧
    blog_posts (db w) !! id = None ∧
    dispatch (show_post id None) w' =
      (render_template (post_jinja
         (id, BlogPost.mk (pf_title f) (pf_subtitle f)
                (today_strftime env "%B %d, %Y")
                (pf_body f) (pf_img_url f) (pk author))), w').
Proof.
  unfold dispatch at 1. rewrite add_new_post_run.
  destruct (session w) as [user_id|] eqn:Hs; [|done].
  destruct (users (db w) !! user_id) as [u|] eqn:Hu; [|done].
  case_bool_decide as Hid; [|done]. simpl.
  destruct (has_value BlogPost.title (pf_title f) (blog_posts (db w))); [done|].
  intros [= <-].
  exists (next_id (blog_posts (db w))), (user_id, u). split; [|split; [|split]].
  - by rewrite current_user_run, Hs, Hu.
  - done.
  - apply next_id_fresh.
  - unfold dispatch. rewrite show_post_run. simpl. rewrite lookup_insert_eq.
    by rewrite (render_logged_in _ _ user_id u).
Qed.

(** ** Logout *)

(** C9, amended.  A request to [logout] with a session that names a user
    of the store clears the session and redirects to the post list.  A
    request with no session is answered with 401, and nothing changes. *)
Theorem logout_by_session (w : World) :
  (∀ user_id u, session w = Some user_id → users (db w) !! user_id = Some u →
     dispatch logout w = (redirect ep_get_all_posts, set_session None w)) ∧
  (session w = None → dispatch logout w = (error_response 401, w)).
Proof.
  unfold dispatch. rewrite logout_run. split.
  - by intros user_id u -> ->.
  - by intros ->.
Qed.

(** ** Registration is two steps *)

(** C10.  In a registration with a fresh email, whatever function
    [establish] is called to set up the session, it is called in the world
    [w1] that already holds the new row under its id and still has the
    session of the request.  If [establish] returns [False] the handler
    goes on to render the registration page (the page is the answer when
    the session [establish] left names a user of the store or there is
    none), and if it raises the exception leaves the handler; in both cases
    the world is the one [establish] left, with no rollback: when
    [establish] does not write to the store, the row is in the store after
    the request. *)
Theorem register_commits_before_session (establish : entity User.t → M bool)
    (env : Env) (f : RegisterForm) (w : World) :
  (∀ k u, users (db w) !! k = Some u → User.email u ≠ rf_email f) →
  let id := next_id (users (db w)) in
  let user := User.mk (rf_name f) (rf_email f) (hash env (rf_password f)) in
  let w1 := set_db (set_users (<[id := user]> (users (db w))) (db w)) w in
  users (db w1) !! id = Some user ∧ session w1 = session w ∧
  register_with establish env (Some f) w =
    (ok ← establish (id, user);
     if (ok : bool) then mret (redirect ep_get_all_posts)
     else render register_jinja) w1 ∧
  (∀ w2, establish (id, user) w1 = (Ok false, w2) →
     register_with establish env (Some f) w = render register_jinja w2 ∧
     (register_with establish env (Some f) w).2 = w2 ∧
     (session_valid w2 →
        register_with establish env (Some f) w
          = (Ok (render_template register_jinja), w2))) ∧
  (∀ e w2, establish (id, user) w1 = (Raise e, w2) →
     register_with establish env (Some f) w = (Raise e, w2)) ∧
  (db ((establish (id, user) w1).2) = db w1 →
     users (db ((register_with establish env (Some f) w).2)) !! id = Some user).
Proof.
  intros Hfresh id user w1. apply (has_value_false User.email) in Hfresh.
  rewrite register_with_run. simpl. rewrite Hfresh. fold id user w1.
  split; [apply lookup_insert_eq|]. split; [done|]. split; [done|].
  unfold mbind, M_bind, bind. split; [|split].
  - intros w2 ->. split; [done|]. split; [apply render_world|].
    intros Hvalid. by apply render_valid.
  - by intros e w2 ->.
  - destruct (establish (id, user) w1) as [[[]|e] w2]; simpl;
      rewrite ?render_world; simpl; intros ->; apply lookup_insert_eq.
Qed.

End Claims.

(** ** The claims on the scenario *)

Import Scenario.

(** X1 on the scenario: Bob, logged in, is refused the deletion of
    Alice's post with 403. *)
Lemma admin_only_other_user_403_witness :
  dispatch (delete_post 1) (as_bob store_posted) = (error_response 403, as_bob store_posted).
Proof.
  apply (admin_only_other_user_403 _ (as_bob store_posted) 2 bob);
    [reflexivity | reflexivity | lia].
Defined.

(** C5 on the scenario: a second registration with Alice's email is sent
    to login and the store keeps its two users; Alice's own registration,
    into the empty store, is accepted and she receives id 1. *)
Lemma register_duplicate_email_witness :
  dispatch (register env0 (Some (mkRegisterForm "Mallory" "alice@example.com" "pw3")))
      (visitor store_users)
    = (redirect ep_login,
       mkWorld store_users None [("The email is already registered.", "email")]) ∧
  (users store_empty !! 1 = None ∧
   dispatch (register env0 (Some alice_form)) (visitor store_empty)
    = (redirect ep_get_all_posts, as_alice (mkStore {[1 := alice]} ∅ ∅))).
Proof.
  split.
  - apply (proj1 (register_duplicate_email env0
             (mkRegisterForm "Mallory" "alice@example.com" "pw3") (visitor store_users))).
    exists 1, alice. split; reflexivity.
  - apply (proj2 (register_duplicate_email env0 alice_form (visitor store_empty))).
    apply (has_value_false User.email). reflexivity.
Defined.

(** C6 on the scenario: Alice logs in with "pw1" and the session's
    principal is Alice; with "pw2" she gets the invalid-password message;
    Carol, who never registered, gets the unknown-email message. *)
Lemma login_registered_user_witness :
  (dispatch (login (Some (mkLoginForm "alice@example.com" "pw1"))) (visitor store_users)
     = (redirect ep_get_all_posts, as_alice store_users) ∧
   current_user (as_alice store_users) = (Ok (a_user (1, alice)), as_alice store_users)) ∧
  dispatch (login (Some (mkLoginForm "alice@example.com" "pw2"))) (visitor store_users)
     = (render_template login_jinja,
        mkWorld store_users None [("Password invalid. Try again.", "warning")]) ∧
  dispatch (login (Some (mkLoginForm "carol@example.com" "pw1"))) (visitor store_users)
     = (render_template login_jinja,
        mkWorld store_users None [("Email does not exist. Try again.", "warning")]).
Proof.
  assert (∀ k' u', users (db (visitor store_users)) !! k' = Some u' →
                   User.email u' = "alice@example.com" → k' = 1) as Hone.
  { intros k' u' Hk' He'. simpl in Hk'. unfold two_users in Hk'.
    apply lookup_insert_Some in Hk' as [[<- <-]|[_ Hk']]; [done|].
    by apply lookup_singleton_Some in Hk' as [<- _]. }
  assert (session_valid (visitor store_users)) as Hvalid by (by intros user_id).
  split; [|split].
  - apply (proj1 (proj1 (login_registered_user (visitor store_users)
                           "alice@example.com" "pw1") 1 alice eq_refl eq_refl Hone) env0).
    reflexivity.
  - destruct (proj1 (login_registered_user (visitor store_users)
                      "alice@example.com" "pw2") 1 alice eq_refl eq_refl Hone)
      as [_ Hbad].
    apply Hbad; [reflexivity | exact Hvalid].
  - refine (proj2 (proj2 (proj2 (login_registered_user (visitor store_users)
                                   "carol@example.com" "pw1") _)) Hvalid).
    apply (has_value_false User.email). reflexivity.
Defined.

(** X2 on the scenario: Alice's post "Hello" is accepted. *)
Lemma add_new_post_succeeds_witness :
  ∃ w', dispatch (add_new_post env0 (Some hello_form)) (as_alice store_users)
          = (redirect ep_get_all_posts, w').
Proof.
  apply (add_new_post_succeeds env0 hello_form (as_alice store_users) alice);
    [reflexivity | reflexivity |].
  apply (has_value_false BlogPost.title). reflexivity.
Defined.

(** X3 on the scenario: Alice registers, the session is dropped, and she
    logs in with the same email and password. *)
Lemma register_then_login_witness :
  dispatch (login (Some (mkLoginForm "alice@example.com" "pw1")))
      (visitor (mkStore {[1 := alice]} ∅ ∅))
    = (redirect ep_get_all_posts, as_alice (mkStore {[1 := alice]} ∅ ∅)).
Proof.
  apply (register_then_login env0 alice_form (visitor store_empty) None []).
  apply (has_value_false User.email). reflexivity.
Defined.

(** C7 on the scenario: Alice posts "Hello"; it becomes post 1, and
    fetching post 1 shows her fields, her as the author and the day's
    stamp. *)
Lemma add_new_post_round_trip_witness :
  ∃ (id : Z) (author : entity User.t),
    current_user (as_alice store_users) = (Ok (a_user author), as_alice store_users) ∧
    pk author = 1 ∧
    blog_posts (db (as_alice store_users)) !! id = None ∧
    dispatch (show_post id None) (as_alice store_posted) =
      (render_template (post_jinja
         (id, BlogPost.mk "Hello" "A first post" "November 03, 2026" "<p>Hello</p>"
                "https://example.com/hello.png" (pk author))), as_alice store_posted).
Proof.
  apply (add_new_post_round_trip env0 hello_form (as_alice store_users) (as_alice store_posted)).
  reflexivity.
Defined.

(** A store that holds a comment on post 1 (no request creates one, see
    X7): Alice's request to delete the post raises [IntegrityError], the
    store is unchanged, and fetching post 1 afterwards still renders it. *)
Lemma delete_post_with_comment_fails :
  session (as_alice store_commented) = Some 1 ∧
  users (db (as_alice store_commented)) !! 1 = Some alice ∧
  blog_posts (db (as_alice store_commented)) !! 1 = Some hello ∧
  dispatch (delete_post 1) (as_alice store_commented)
    = (error_response 500, as_alice store_commented) ∧
  dispatch (show_post 1 None) (as_alice store_commented)
    = (render_template (post_jinja (1, hello)), as_alice store_commented).
Proof. repeat split; reflexivity. Qed.

(** C9 on the scenario: Alice logs out; a visitor without a session gets
    401. *)
Lemma logout_by_session_witness :
  dispatch logout (as_alice store_users) = (redirect ep_get_all_posts, visitor store_users) ∧
  dispatch logout (visitor store_users) = (error_response 401, visitor store_users).
Proof.
  split.
  - apply (proj1 (logout_by_session (as_alice store_users)) 1 alice); reflexivity.
  - apply (proj2 (logout_by_session (visitor store_users))); reflexivity.
Defined.

(** C9 as stated fails for a request without a session: the answer is
    401, not a redirect to the login page. *)
Lemma logout_without_session_is_401 :
  session (visitor store_users) = None ∧
  dispatch logout (visitor store_users) = (error_response 401, visitor store_users) ∧
  (dispatch logout (visitor store_users)).1 ≠ redirect ep_login.
Proof. repeat split. discriminate. Qed.

(** C10 on the scenario: Alice registers into the empty store and the
    session function refuses.  She gets the registration page, has no
    session, and is user 1 of the store. *)
Lemma register_commits_before_session_witness :
  register_with refuse env0 (Some alice_form) (visitor store_empty)
    = (Ok (render_template register_jinja), visitor (mkStore {[1 := alice]} ∅ ∅)) ∧
  users (db (register_with refuse env0 (Some alice_form) (visitor store_empty)).2) !! 1
    = Some alice.
Proof.
  assert (∀ k u, users (db (visitor store_empty)) !! k = Some u →
                 User.email u ≠ rf_email alice_form) as Hfresh.
  { apply (has_value_false User.email). reflexivity. }
  destruct (register_commits_before_session refuse env0 alice_form
              (visitor store_empty) Hfresh) as (_ & _ & _ & Hfalse & _ & Hrow).
  split.
  - destruct (Hfalse (visitor (mkStore {[1 := alice]} ∅ ∅)) eq_refl) as (_ & _ & Hpage).
    apply Hpage. by intros user_id.
  - apply Hrow. reflexivity.
Defined.

(** * More of the application: all routes together *)

Section Coverage.
Context `{hasher : PasswordHasher} `{scanner : TableScan}.

(** ** What the remaining handlers compute *)

Lemma edit_post_run (post_id : Z) (form : option CreatePostForm) (w : World) :
  edit_post post_id form w =
  match session w with
  | None => (Raise AttributeError, w)
  | Some user_id =>
      match users (db w) !! user_id with
      | Some _ =>
          if bool_decide (user_id = 1) then
            match blog_posts (db w) !! post_id with
            | None => (Raise (HTTPException 404), w)
            | Some old =>
                match form with
                | None => (Ok (render_template (make_post_html true)), w)
                | Some f =>
                    let edited :=
                      BlogPost.mk (pf_title f) (pf_subtitle f) (BlogPost.date old)
                        (pf_body f) (pf_img_url f) user_id in
                    if has_value BlogPost.title (pf_title f)
                         (delete post_id (blog_posts (db w)))
                    then (Raise IntegrityError, w)
                    else (Ok (redirect (ep_show_post post_id)),
                          set_db (set_blog_posts
                            (<[post_id := edited]> (blog_posts (db w))) (db w)) w)
                end
            end
          else (Raise (HTTPException 403), w)
      | None => (Raise (HTTPException 404), w)
      end
  end.
Proof.
  unfold edit_post. rewrite admin_only_run.
  destruct (session w) as [user_id|] eqn:Hs; [|done].
  destruct (users (db w) !! user_id) as [u|] eqn:Hu; [|done].
  destruct (bool_decide (user_id = 1)); [|done].
  unfold mbind, M_bind, bind at 1. rewrite get_or_404_run.
  destruct (blog_posts (db w) !! post_id) as [old|]; [|done].
  destruct form as [f|]; [|by rewrite (render_logged_in _ _ user_id u)].
  unfold bind at 1. rewrite current_user_run, Hs, Hu.
  unfold bind at 1, as_mapped, mret, M_ret, ret. unfold commit_update_post.
  unfold_monad. simpl.
  by destruct (has_value BlogPost.title (pf_title f) (delete post_id (blog_posts (db w)))).
Qed.

Lemma add_new_post_get_run (env : Env) (w : World) :
  add_new_post env None w =
  match session w with
  | None => (Raise AttributeError, w)
  | Some user_id =>
      match users (db w) !! user_id with
      | Some _ =>
          if bool_decide (user_id = 1)
          then (Ok (render_template (make_post_html false)), w)
          else (Raise (HTTPException 403), w)
      | None => (Raise (HTTPException 404), w)
      end
  end.
Proof.
  unfold add_new_post. rewrite admin_only_run.
  destruct (session w) as [user_id|] eqn:Hs; [|done].
  destruct (users (db w) !! user_id) as [u|] eqn:Hu; [|done].
  case_bool_decide; [|done]. by rewrite (render_logged_in _ _ user_id u).
Qed.

(** ** Every request is one step of the store

    Whatever the request, the session and the store, the store afterwards
    is the store before or one of the four changes of [store_step]. *)
Lemma serve_store_step (env : Env) (r : request) (w : World) :
  store_step w (db (serve env r w).2).
Proof.
  unfold serve. rewrite dispatch_world.
  destruct r as [form|form| | |post_id form|form|post_id form|post_id| |]; simpl.
  - destruct form as [f|]; [|unchanged].
    unfold register. rewrite register_with_run. simpl.
    destruct (has_value User.email (rf_email f) (users (db w))) eqn:E; [unchanged|].
    simpl. apply (step_register w (User.mk _ _ _)).
    by apply (has_value_false User.email).
  - destruct form as [f|]; [|unchanged].
    rewrite login_run. destruct (head _) as [u|]; [|unchanged].
    destruct (check_password_hash _ _); unchanged.
  - rewrite logout_run. destruct (session w) as [uid|]; [|unchanged].
    destruct (users (db w) !! uid); unchanged.
  - unfold get_all_posts, mbind, M_bind, bind, get_world. unchanged.
  - rewrite show_post_run.
    destruct (blog_posts (db w) !! Z.of_N post_id); [|unchanged].
    destruct form; [|unchanged].
    destruct (session w) as [uid|]; [|unchanged].
    destruct (users (db w) !! uid); unchanged.
  - destruct form as [f|].
    + rewrite add_new_post_run.
      destruct (session w) as [uid|] eqn:Hs; [|unchanged].
      destruct (users (db w) !! uid) as [u|] eqn:Hu; [|unchanged].
      case_bool_decide as Hid; [subst uid|unchanged]. simpl.
      destruct (has_value _ _ _) eqn:E; [unchanged|]. simpl.
      apply (step_add_post w u (BlogPost.mk _ _ _ _ _ _)); try done.
      by apply (has_value_false BlogPost.title).
    + rewrite add_new_post_get_run.
      destruct (session w) as [uid|]; [|unchanged].
      destruct (users (db w) !! uid); [|unchanged].
      case_bool_decide; unchanged.
  - rewrite edit_post_run.
    destruct (session w) as [uid|] eqn:Hs; [|unchanged].
    destruct (users (db w) !! uid) as [u|] eqn:Hu; [|unchanged].
    case_bool_decide as Hid; [subst uid|unchanged].
    destruct (blog_posts (db w) !! Z.of_N post_id) as [old|] eqn:Hp; [|unchanged].
    destruct form as [f|]; [|unchanged]. simpl.
    destruct (has_value _ _ _) eqn:E; [unchanged|]. simpl.
    apply (step_edit_post w u _ old (BlogPost.mk _ _ _ _ _ _)); try done.
    intros k q Hne Hk. apply (has_value_false BlogPost.title) with (k := k) (r := q) in E;
      [done|]. by rewrite lookup_delete_ne.
  - rewrite delete_post_run.
    destruct (session w) as [uid|] eqn:Hs; [|unchanged].
    destruct (users (db w) !! uid) as [u|] eqn:Hu; [|unchanged].
    case_bool_decide as Hid; [subst uid|unchanged].
    destruct (blog_posts (db w) !! Z.of_N post_id) as [old|] eqn:Hp; [|unchanged].
    destruct (has_value _ _ _) eqn:E; [unchanged|]. simpl.
    apply (step_delete_post w u _ old); try done.
    by apply (has_value_false Comment.post_id).
  - unfold about. unchanged.
  - unfold contact. unchanged.
Qed.

(** ** What a step keeps *)

Lemma store_step_ok (w : World) (s' : Store) :
  store_ok (db w) → store_step w s' → store_ok s'.
Proof.
  intros [Hem Hti Hpa Hca Hcp] Hstep.
  destruct Hstep as [|u Hfresh|admin p Hs Hadmin Hp Hfresh
                     |admin id old p Hs Hadmin Hold Hp Hdate Hfresh
                     |admin id old Hs Hadmin Hold Hnone].
  - by split.
  - pose proof (next_id_fresh (users (db w))) as Hnew.
    split; simpl; try done.
    + intros k1 k2 u1 u2 H1 H2 He.
      apply lookup_insert_Some in H1 as [[<- <-]|[Hn1 H1]];
        apply lookup_insert_Some in H2 as [[<- <-]|[Hn2 H2]]; try done.
      * by apply Hfresh in H2.
      * symmetry in He. by apply Hfresh in H1.
      * eauto.
    + intros k p Hk. apply lookup_insert_is_Some'. right. eauto.
    + intros k c Hk. apply lookup_insert_is_Some'. right. eauto.
  - split; simpl; try done.
    + intros k1 k2 p1 p2 H1 H2 He.
      apply lookup_insert_Some in H1 as [[<- <-]|[Hn1 H1]];
        apply lookup_insert_Some in H2 as [[<- <-]|[Hn2 H2]]; try done.
      * by apply Hfresh in H2.
      * symmetry in He. by apply Hfresh in H1.
      * eauto.
    + intros k q Hk. apply lookup_insert_Some in Hk as [[<- <-]|[Hn Hk]]; [|eauto].
      rewrite Hp. eauto.
    + intros k c Hk. apply lookup_insert_is_Some'. right. eauto.
  - split; simpl; try done.
    + intros k1 k2 p1 p2 H1 H2 He.
      apply lookup_insert_Some in H1 as [[<- <-]|[Hn1 H1]];
        apply lookup_insert_Some in H2 as [[<- <-]|[Hn2 H2]]; try done.
      * by apply Hfresh in H2.
      * symmetry in He. by apply Hfresh in H1.
      * eauto.
    + intros k q Hk. apply lookup_insert_Some in Hk as [[<- <-]|[Hn Hk]]; [|eauto].
      rewrite Hp. eauto.
    + intros k c Hk. apply lookup_insert_is_Some'. right. eauto.
  - split; simpl; try done.
    + intros k1 k2 p1 p2 H1 H2 He.
      apply lookup_delete_Some in H1 as [_ H1]. apply lookup_delete_Some in H2 as [_ H2].
      eauto.
    + intros k q Hk. apply lookup_delete_Some in Hk as [_ Hk]. eauto.
    + intros k c Hk. rewrite lookup_delete_ne; [eauto|].
      intros ->. by apply Hnone in Hk.
Qed.

Lemma store_step_users (w : World) (s' : Store) (k : Z) (u : User.t) :
  store_step w s' → users (db w) !! k = Some u → users s' !! k = Some u.
Proof.
  intros Hstep Hk. destruct Hstep; simpl; try done.
  rewrite lookup_insert_ne; [done|].
  intros <-. by rewrite next_id_fresh in Hk.
Qed.

Lemma store_step_comments (w : World) (s' : Store) :
  store_step w s' → comments s' = comments (db w).
Proof. by intros []. Qed.

Lemma store_step_posts (w : World) (s' : Store) :
  store_step w s' → blog_posts s' ≠ blog_posts (db w) →
  session w = Some 1 ∧ is_Some (users (db w) !! 1).
Proof. intros [] Hne; simpl in *; eauto; done. Qed.

Lemma store_step_author (w : World) (s' : Store) :
  (∀ k p, blog_posts (db w) !! k = Some p → BlogPost.user_id p = 1) →
  store_step w s' →
  ∀ k p, blog_posts s' !! k = Some p → BlogPost.user_id p = 1.
Proof.
  intros Hall Hstep k q Hk. destruct Hstep; simpl in *; eauto.
  - apply lookup_insert_Some in Hk as [[<- <-]|[_ Hk]]; eauto.
  - apply lookup_insert_Some in Hk as [[<- <-]|[_ Hk]]; eauto.
  - apply lookup_delete_Some in Hk as [_ Hk]. eauto.
Qed.

Lemma store_step_date (w : World) (s' : Store) (k : Z) (p p' : BlogPost.t) :
  store_step w s' →
  blog_posts (db w) !! k = Some p → blog_posts s' !! k = Some p' →
  BlogPost.date p' = BlogPost.date p.
Proof.
  intros Hstep Hk Hk'. destruct Hstep; simpl in *.
  - congruence.
  - congruence.
  - rewrite lookup_insert_ne in Hk'; [congruence|].
    intros <-. by rewrite next_id_fresh in Hk.
  - apply lookup_insert_Some in Hk' as [[<- <-]|[_ Hk']]; congruence.
  - apply lookup_delete_Some in Hk' as [_ Hk']. congruence.
Qed.

(** ** Invariants of serving a request *)

(** X4.  Serving a request keeps what the schema declares: if emails and
    titles are unique and every foreign key refers to a row before the
    request, they are and do after it, whatever the request and the
    session. *)
Theorem serve_preserves_store_ok (env : Env) (r : request) (w : World) :
  store_ok (db w) → store_ok (db (serve env r w).2).
Proof. intros Hok. eapply store_step_ok; [done|]. apply serve_store_step. Qed.

(** X5.  No request removes or alters a user: a row of the users table
    before the request is the same row after it. *)
Theorem serve_keeps_users (env : Env) (r : request) (w : World) (k : Z) (u : User.t) :
  users (db w) !! k = Some u → users (db (serve env r w).2) !! k = Some u.
Proof. intros Hk. eapply store_step_users; [|done]. apply serve_store_step. Qed.

(** X6.  If serving a request changes the posts table in any way, the
    request came with the session of user 1. *)
Theorem serve_posts_change_only_by_admin (env : Env) (r : request) (w : World) :
  blog_posts (db (serve env r w).2) ≠ blog_posts (db w) →
  ∃ admin, current_user w = (Ok (a_user (1, admin)), w).
Proof.
  intros Hne. apply store_step_posts in Hne as [Hs [admin Hadmin]];
    [|apply serve_store_step].
  exists admin. by rewrite current_user_run, Hs, Hadmin.
Qed.

(** X7.  No request changes the comments table: the only [db_add] of a
    [Comment] stands behind the call [current_user.is_anonymous()], which
    raises for every principal. *)
Theorem serve_never_changes_comments (env : Env) (r : request) (w : World) :
  comments (db (serve env r w).2) = comments (db w).
Proof. apply store_step_comments, serve_store_step. Qed.

(** X8.  A post keeps its date: as long as a post with a given id is in
    the store before and after a request, its date is the same
    ([edit_post] does not assign it). *)
Theorem serve_keeps_post_date (env : Env) (r : request) (w : World)
    (k : Z) (p p' : BlogPost.t) :
  blog_posts (db w) !! k = Some p →
  blog_posts (db (serve env r w).2) !! k = Some p' →
  BlogPost.date p' = BlogPost.date p.
Proof. intros Hk Hk'. eapply store_step_date; [apply serve_store_step|done..]. Qed.

(** X9.  In every store the application reaches from the empty tables,
    under any sequence of requests with any sessions, the schema's
    constraints hold and every post has user 1 as its author. *)
Theorem reachable_store_ok (s : Store) :
  reachable s →
  store_ok s ∧ ∀ k p, blog_posts s !! k = Some p → BlogPost.user_id p = 1.
Proof.
  induction 1 as [|s c fl env r Hreach [Hok Hauthor]].
  - split; [|done]. by split; intros *; rewrite ?lookup_empty.
  - pose proof (serve_store_step env r (mkWorld s c fl)) as Hstep. split.
    + exact (store_step_ok (mkWorld s c fl) _ Hok Hstep).
    + exact (store_step_author (mkWorld s c fl) _ Hauthor Hstep).
Qed.

(** X10.  If the session cookie names a user of the store (or there is
    none) before a request, the same holds of the cookie and the store
    after it: the application never issues or keeps a cookie for a user
    that is not there. *)
Theorem serve_keeps_session_valid (env : Env) (r : request) (w : World) :
  session_valid w → session_valid (serve env r w).2.
Proof.
  intros Hvalid.
  assert (∀ w', session w' = session w → store_step w (db w') → session_valid w') as Hsame.
  { intros w' Hs Hstep uid Huid. rewrite Hs in Huid.
    destruct (Hvalid uid Huid) as [u Hu]. exists u. by eapply store_step_users. }
  assert (session (serve env r w).2 = session w ∨
          session (serve env r w).2 = None ∨
          ∃ uid, session (serve env r w).2 = Some uid ∧
                 is_Some (users (db (serve env r w).2) !! uid)) as Hcases.
  { unfold serve. rewrite dispatch_world.
    destruct r as [form|form| | |post_id form|form|post_id form|post_id| |]; simpl.
    - destruct form as [f|]; [|same_session].
      unfold register. rewrite register_with_run. simpl.
      destruct (has_value _ _ _); [by left|]. simpl.
      right; right. eexists. split; [done|]. rewrite lookup_insert_eq. eauto.
    - destruct form as [f|]; [|same_session].
      rewrite login_run. destruct (head _) as [[k u]|] eqn:Hh; [|same_session].
      destruct (check_password_hash _ _); [|same_session]. simpl.
      right; right. exists k. split; [done|].
      apply head_Some_elem_of, list_elem_of_filter in Hh as [_ Hin].
      apply elem_of_scan in Hin. eauto.
    - rewrite logout_run. destruct (session w) as [uid|] eqn:Hs; [|keeps_session].
      destruct (users (db w) !! uid); [right; by left|keeps_session].
    - unfold get_all_posts, mbind, M_bind, bind, get_world. same_session.
    - rewrite show_post_run.
      destruct (blog_posts (db w) !! Z.of_N post_id); [|by left].
      destruct form; [|same_session].
      destruct (session w) as [uid|] eqn:Hs; [|keeps_session].
      destruct (users (db w) !! uid); keeps_session.
    - destruct form as [f|].
      + rewrite add_new_post_run.
        destruct (session w) as [uid|] eqn:Hs; [|keeps_session].
        destruct (users (db w) !! uid); [|keeps_session].
        case_bool_decide; [|keeps_session]. simpl.
        destruct (has_value _ _ _); keeps_session.
      + rewrite add_new_post_get_run.
        destruct (session w) as [uid|] eqn:Hs; [|keeps_session].
        destruct (users (db w) !! uid); [|keeps_session].
        case_bool_decide; keeps_session.
    - rewrite edit_post_run.
      destruct (session w) as [uid|] eqn:Hs; [|keeps_session].
      destruct (users (db w) !! uid); [|keeps_session].
      case_bool_decide; [|keeps_session].
      destruct (blog_posts (db w) !! Z.of_N post_id); [|keeps_session].
      destruct form as [f|]; [|keeps_session]. simpl.
      destruct (has_value _ _ _); keeps_session.
    - rewrite delete_post_run.
      destruct (session w) as [uid|] eqn:Hs; [|keeps_session].
      destruct (users (db w) !! uid); [|keeps_session].
      case_bool_decide; [|keeps_session].
      destruct (blog_posts (db w) !! Z.of_N post_id); [|keeps_session].
      destruct (has_value _ _ _); keeps_session.
    - unfold about. same_session.
    - unfold contact. same_session. }
  destruct Hcases as [Hs|[Hs|(uid & Hs & Hu)]].
  - apply Hsame; [done|apply serve_store_step].
  - intros uid Huid. congruence.
  - intros uid' Huid'. congruence.
Qed.

(** ** Editing and listing posts *)

(** X11.  When the administrator submits the fields [f] for an existing
    post and no other post has the title of [f], [edit_post] redirects to
    the post, and fetching the post then shows the title, subtitle, body
    and image URL of [f], user 1 as the author, and the date the post had.
    The other posts, the users, the comments, the session and the flashed
    messages are as before. *)
Theorem edit_post_round_trip (post_id : Z) (f : CreatePostForm) (w : World)
    (admin : User.t) (old : BlogPost.t) :
  session w = Some 1 → users (db w) !! 1 = Some admin →
  blog_posts (db w) !! post_id = Some old →
  (∀ k q, k ≠ post_id → blog_posts (db w) !! k = Some q → BlogPost.title q ≠ pf_title f) →
  let edited :=
    BlogPost.mk (pf_title f) (pf_subtitle f) (BlogPost.date old)
      (pf_body f) (pf_img_url f) 1 in
  ∃ w', dispatch (edit_post post_id (Some f)) w = (redirect (ep_show_post post_id), w') ∧
        dispatch (show_post post_id None) w'
          = (render_template (post_jinja (post_id, edited)), w') ∧
        (∀ k, k ≠ post_id → blog_posts (db w') !! k = blog_posts (db w) !! k) ∧
        users (db w') = users (db w) ∧ comments (db w') = comments (db w) ∧
        session w' = session w ∧ flashes w' = flashes w.
Proof.
  intros Hs Hadmin Hold Hfresh edited.
  assert (has_value BlogPost.title (pf_title f) (delete post_id (blog_posts (db w))) = false)
    as Hnodup.
  { apply (has_value_false BlogPost.title). intros k q Hk.
    apply lookup_delete_Some in Hk as [Hne Hk]. eauto. }
  eexists. unfold dispatch at 1. rewrite edit_post_run, Hs, Hadmin, Hold. simpl.
  rewrite Hnodup. split; [done|]. split; [|split; [|done]].
  - unfold dispatch. rewrite show_post_run. simpl. rewrite lookup_insert_eq.
    by rewrite (render_logged_in _ _ 1 admin).
  - intros k Hne. simpl. by rewrite lookup_insert_ne.
Qed.

(** X12.  When some post has the submitted title, the administrator's
    request to create a post with it, and to give it to any other existing
    post, is answered with 500 ([IntegrityError] from the UNIQUE
    constraint, which no handler catches) and nothing changes. *)
Theorem duplicate_title_500 (env : Env) (f : CreatePostForm) (w : World)
    (admin : User.t) (k : Z) (q : BlogPost.t) :
  session w = Some 1 → users (db w) !! 1 = Some admin →
  blog_posts (db w) !! k = Some q → BlogPost.title q = pf_title f →
  dispatch (add_new_post env (Some f)) w = (error_response 500, w) ∧
  ∀ post_id, post_id ≠ k → is_Some (blog_posts (db w) !! post_id) →
    dispatch (edit_post post_id (Some f)) w = (error_response 500, w).
Proof.
  intros Hs Hadmin Hk Ht. split.
  - assert (has_value BlogPost.title (pf_title f) (blog_posts (db w)) = true) as Hdup.
    { apply (has_value_true BlogPost.title). eauto. }
    unfold dispatch. rewrite add_new_post_run, Hs, Hadmin. simpl. by rewrite Hdup.
  - intros post_id Hne [old Hold].
    assert (has_value BlogPost.title (pf_title f)
              (delete post_id (blog_posts (db w))) = true) as Hdup.
    { apply (has_value_true BlogPost.title). exists k, q.
      by rewrite lookup_delete_ne. }
    unfold dispatch. rewrite edit_post_run, Hs, Hadmin, Hold. simpl. by rewrite Hdup.
Qed.

(** [rows] lists each row of the table once, by ascending id. *)
Lemma rows_listing {A} (t : gmap Z A) :
  (∀ k r, (k, r) ∈ rows t ↔ t !! k = Some r) ∧
  NoDup (rows t).*1 ∧ Sorted by_id (rows t).
Proof.
  split; [apply elem_of_rows|]. split.
  - unfold rows. rewrite merge_sort_Permutation. apply NoDup_fst_map_to_list.
  - apply Sorted_merge_sort, _.
Qed.

(** A SELECT without ORDER BY lists each row of the table once. *)
Lemma scan_listing {A} (t : gmap Z A) :
  (∀ k r, (k, r) ∈ scan t ↔ t !! k = Some r) ∧ NoDup (scan t).*1.
Proof.
  split; [apply elem_of_scan|]. rewrite scan_all. apply NoDup_fst_map_to_list.
Qed.

(** X13.  [get_all_posts] changes nothing, and when the request's session
    names a user of the store or there is none, it renders the index with
    the stored posts, each once (in the order the store returns them).
    [get_users] returns the stored users, each once, by ascending id. *)
Theorem listings_cover_store (w : World) :
  (dispatch get_all_posts w).2 = w ∧
  (session_valid w →
     ∃ l, dispatch get_all_posts w = (render_template (index_jinja l), w) ∧
          (∀ k p, (k, p) ∈ l ↔ blog_posts (db w) !! k = Some p) ∧
          NoDup l.*1) ∧
  (∃ l, get_users w = (Ok l, w) ∧
        (∀ k u, (k, u) ∈ l ↔ users (db w) !! k = Some u) ∧
        NoDup l.*1 ∧ Sorted by_id l).
Proof.
  split; [|split].
  - rewrite dispatch_world. unfold get_all_posts, mbind, M_bind, bind, get_world.
    apply render_world.
  - intros Hvalid. eexists. split; [|apply scan_listing].
    unfold dispatch, get_all_posts, mbind, M_bind, bind, get_world.
    by rewrite render_valid.
  - eexists. split; [done|apply rows_listing].
Qed.

(** X14.  [get_user_email] never raises and changes nothing; a user it
    returns is a row of the store with the given email, and it returns
    [None] only when no row has that email. *)
Theorem get_user_email_spec (email : string) (w : World) :
  ∃ o, get_user_email email w = (Ok o, w) ∧
       match o with
       | Some u => users (db w) !! pk u = Some (row u) ∧ User.email (row u) = email
       | None => ∀ k r, users (db w) !! k = Some r → User.email r ≠ email
       end.
Proof.
  rewrite get_user_email_run. eexists. split; [done|].
  destruct (head _) as [[k r]|] eqn:Hh.
  - apply head_Some_elem_of, list_elem_of_filter in Hh as [He Hin].
    by apply elem_of_scan in Hin.
  - apply head_None in Hh. intros k r Hk He.
    assert ((k, r) ∈ filter (λ u : entity User.t, User.email (row u) = email)
                      (scan (users (db w)))) as Hin.
    { apply list_elem_of_filter. split; [done|]. by apply elem_of_scan. }
    rewrite Hh in Hin. by apply elem_of_nil in Hin.
Qed.

(** ** Who is the administrator *)

(** X15.  A registration into an empty users table receives id 1, and the
    session it leaves passes [admin_only] (the create-post form is
    rendered).  A registration with a fresh email while user 1 exists
    receives another id, and the session it leaves is refused by
    [admin_only] with 403. *)
Theorem registration_order_decides_admin (env env' : Env) (f : RegisterForm)
    (form : option CreatePostForm) (w : World) :
  (users (db w) = ∅ →
     ∃ w', dispatch (register env (Some f)) w = (redirect ep_get_all_posts, w') ∧
           session w' = Some 1 ∧
           dispatch (add_new_post env' None) w'
             = (render_template (make_post_html false), w')) ∧
  (∀ admin, users (db w) !! 1 = Some admin →
     (∀ k u, users (db w) !! k = Some u → User.email u ≠ rf_email f) →
     ∃ w', dispatch (register env (Some f)) w = (redirect ep_get_all_posts, w') ∧
           dispatch (add_new_post env' form) w' = (error_response 403, w')).
Proof.
  unfold dispatch at 1 3, register. rewrite register_with_run. split.
  - intros Hempty.
    assert (has_value User.email (rf_email f) (users (db w)) = false) as Hfresh.
    { apply (has_value_false User.email). intros k u. by rewrite Hempty, lookup_empty. }
    simpl. rewrite Hfresh. eexists. split; [done|]. rewrite Hempty. split; [done|].
    unfold dispatch. rewrite add_new_post_get_run. simpl.
    by rewrite lookup_insert_eq.
  - intros admin Hadmin Hfresh.
    pose proof (next_id_fresh (users (db w))) as Hnew.
    assert (next_id (users (db w)) ≠ 1) as Hne by (intros Heq; congruence).
    apply (has_value_false User.email) in Hfresh.
    simpl. rewrite Hfresh. eexists. split; [done|].
    unfold dispatch, add_new_post. rewrite admin_only_run. simpl.
    rewrite lookup_insert_eq. by rewrite bool_decide_eq_false_2.
Qed.

(** X16.  Whatever its outcome, a request to [delete_post] leaves every
    post with another id, the users, the comments and the session as they
    were. *)
Theorem delete_post_removes_only_that_post (post_id k : Z) (w : World) :
  k ≠ post_id →
  blog_posts (db (dispatch (delete_post post_id) w).2) !! k = blog_posts (db w) !! k ∧
  users (db (dispatch (delete_post post_id) w).2) = users (db w) ∧
  comments (db (dispatch (delete_post post_id) w).2) = comments (db w) ∧
  session (dispatch (delete_post post_id) w).2 = session w.
Proof.
  intros Hne. unfold dispatch. rewrite delete_post_run.
  destruct (session w) as [uid|] eqn:Hs; [|done].
  destruct (users (db w) !! uid); [|done].
  case_bool_decide; [|done].
  destruct (blog_posts (db w) !! post_id); [|done].
  destruct (has_value _ _ _); [done|]. simpl.
  by rewrite lookup_delete_ne.
Qed.

(** X17.  A request that submits no valid form and is neither [/logout]
    nor [/delete/<id>] leaves the store, the session and the flashed
    messages exactly as they were, whatever it answers. *)
Theorem serve_read_only (env : Env) (r : request) (w : World) :
  read_only r = true → (serve env r w).2 = w.
Proof.
  unfold serve. rewrite dispatch_world.
  destruct r as [[f|]|[f|]| | |post_id [f|]|[f|]|post_id [f|]|post_id| |];
    simpl; try done; intros _.
  - apply render_world.
  - apply render_world.
  - unfold get_all_posts, mbind, M_bind, bind, get_world. apply render_world.
  - rewrite show_post_run.
    destruct (blog_posts (db w) !! Z.of_N post_id); [apply render_world|done].
  - rewrite add_new_post_get_run.
    destruct (session w) as [uid|]; [|done].
    destruct (users (db w) !! uid); [|done]. by case_bool_decide.
  - rewrite edit_post_run.
    destruct (session w) as [uid|]; [|done].
    destruct (users (db w) !! uid); [|done]. case_bool_decide; [|done].
    by destruct (blog_posts (db w) !! Z.of_N post_id).
  - apply render_world.
  - apply render_world.
Qed.

(** X18.  A post that [add_new_post] created is on the index afterwards,
    with the submitted fields, and every post that was on the index before
    is still on it. *)
Theorem add_new_post_listed (env : Env) (f : CreatePostForm) (w w' : World) :
  dispatch (add_new_post env (Some f)) w = (redirect ep_get_all_posts, w') →
  ∃ (l : list (entity BlogPost.t)) (id : Z),
    dispatch get_all_posts w' = (render_template (index_jinja l), w') ∧
    (id, BlogPost.mk (pf_title f) (pf_subtitle f) (today_strftime env "%B %d, %Y")
           (pf_body f) (pf_img_url f) 1) ∈ l ∧
    ∀ k p, blog_posts (db w) !! k = Some p → (k, p) ∈ l.
Proof.
  unfold dispatch at 1. rewrite add_new_post_run.
  destruct (session w) as [user_id|] eqn:Hs; [|done].
  destruct (users (db w) !! user_id) as [u|] eqn:Hu; [|done].
  case_bool_decide as Hid; [subst user_id|done]. simpl.
  destruct (has_value BlogPost.title (pf_title f) (blog_posts (db w))); [done|].
  intros [= <-]. eexists _, (next_id (blog_posts (db w))).
  split; [|split].
  - unfold dispatch, get_all_posts, mbind, M_bind, bind, get_world.
    by rewrite (render_logged_in _ _ 1 u).
  - apply elem_of_scan. simpl. apply lookup_insert_eq.
  - intros k p Hk. apply elem_of_scan. simpl. rewrite lookup_insert_ne; [done|].
    intros <-. by rewrite next_id_fresh in Hk.
Qed.

(** ** Deleting a post *)




End Coverage.

(** ** The routes on the scenario *)

Import Rewrite.

(** X4 on the scenario: the empty store satisfies the schema, and so does
    the store after Alice's registration. *)
Lemma serve_preserves_store_ok_witness : store_ok store_alice.
Proof.
  refine (serve_preserves_store_ok env0 (to_register (Some alice_form))
            (visitor store_empty) _).
  by split; simpl; intros *; rewrite ?lookup_empty.
Defined.

(** X5 on the scenario: Bob is still there after Alice deletes her post. *)
Lemma serve_keeps_users_witness :
  users (db (serve env0 (to_delete_post 1) (as_alice store_posted)).2) !! 2 = Some bob.
Proof.
  apply (serve_keeps_users env0 (to_delete_post 1) (as_alice store_posted) 2 bob).
  reflexivity.
Defined.

(** X6 on the scenario: the request that stored "Hello" was Alice's. *)
Lemma serve_posts_change_only_by_admin_witness :
  ∃ admin, current_user (as_alice store_users)
             = (Ok (a_user (1, admin)), as_alice store_users).
Proof.
  apply (serve_posts_change_only_by_admin env0 (to_add_new_post (Some hello_form))
           (as_alice store_users)).
  intros Heq. apply (f_equal (λ t : gmap Z BlogPost.t, t !! 1)) in Heq.
  vm_compute in Heq. discriminate.
Defined.

(** X8 on the scenario: Alice rewrites "Hello"; the date stays. *)
Lemma serve_keeps_post_date_witness : BlogPost.date again = BlogPost.date hello.
Proof.
  apply (serve_keeps_post_date env0 (to_edit_post 1 (Some again_form))
           (as_alice store_posted) 1 hello again); reflexivity.
Defined.

(** X9 on the scenario: the store after Alice's registration and her post
    is reached in two requests. *)
Lemma reachable_store_ok_witness :
  store_ok store_alice_posted ∧
  ∀ k p, blog_posts store_alice_posted !! k = Some p → BlogPost.user_id p = 1.
Proof.
  apply (reachable_store_ok store_alice_posted).
  exact (reachable_serve store_alice (Some 1) [] env0 (to_add_new_post (Some hello_form))
           (reachable_serve (mkStore ∅ ∅ ∅) None [] env0 (to_register (Some alice_form))
              reachable_create_all)).
Defined.

(** X10 on the scenario: Bob logs in from a browser that held Alice's
    session. *)
Lemma serve_keeps_session_valid_witness : session_valid (as_bob store_users).
Proof.
  refine (serve_keeps_session_valid env0
            (to_login (Some (mkLoginForm "bob@example.com" "pw2")))
            (as_alice store_users) _).
  intros user_id [= <-]. by exists alice.
Defined.

(** X11 on the scenario: Alice rewrites "Hello" as "Hello again". *)
Lemma edit_post_round_trip_witness :
  ∃ w', dispatch (edit_post 1 (Some again_form)) (as_alice store_posted)
          = (redirect (ep_show_post 1), w') ∧
        dispatch (show_post 1 None) w' = (render_template (post_jinja (1, again)), w') ∧
        (∀ k, k ≠ 1 → blog_posts (db w') !! k = blog_posts (db (as_alice store_posted)) !! k) ∧
        users (db w') = users (db (as_alice store_posted)) ∧
        comments (db w') = comments (db (as_alice store_posted)) ∧
        session w' = session (as_alice store_posted) ∧
        flashes w' = flashes (as_alice store_posted).
Proof.
  apply (edit_post_round_trip 1 again_form (as_alice store_posted) alice hello);
    [reflexivity | reflexivity | reflexivity |].
  intros k q Hne Hk. simpl in Hk. by rewrite lookup_singleton_ne in Hk.
Defined.

(** X12 on the scenario: a second "Hello" is refused with 500. *)
Lemma duplicate_title_500_witness :
  dispatch (add_new_post env0 (Some hello_form)) (as_alice store_posted)
    = (error_response 500, as_alice store_posted) ∧
  ∀ post_id, post_id ≠ 1 →
    is_Some (blog_posts (db (as_alice store_posted)) !! post_id) →
    dispatch (edit_post post_id (Some hello_form)) (as_alice store_posted)
      = (error_response 500, as_alice store_posted).
Proof.
  apply (duplicate_title_500 env0 hello_form (as_alice store_posted) alice 1 hello);
    reflexivity.
Defined.

(** X15 on the scenario: Alice, first to register, may open the create-post
    form; Bob, registering after her, is refused. *)
Lemma registration_order_decides_admin_witness :
  (∃ w', dispatch (register env0 (Some alice_form)) (visitor store_empty)
           = (redirect ep_get_all_posts, w') ∧
         session w' = Some 1 ∧
         dispatch (add_new_post env0 None) w' = (render_template (make_post_html false), w')) ∧
  (∃ w', dispatch (register env0 (Some bob_form)) (visitor store_alice)
           = (redirect ep_get_all_posts, w') ∧
         dispatch (add_new_post env0 (Some hello_form)) w' = (error_response 403, w')).
Proof.
  split.
  - apply (proj1 (registration_order_decides_admin env0 env0 alice_form None
                    (visitor store_empty))).
    reflexivity.
  - apply (proj2 (registration_order_decides_admin env0 env0 bob_form (Some hello_form)
                    (visitor store_alice)) alice); [reflexivity|].
    apply (has_value_false User.email). reflexivity.
Defined.

(** X16 on the scenario: deleting post 1 does not touch id 2 or the
    users. *)
Lemma delete_post_removes_only_that_post_witness :
  blog_posts (db (dispatch (delete_post 1) (as_alice store_posted)).2) !! 2
    = blog_posts (db (as_alice store_posted)) !! 2 ∧
  users (db (dispatch (delete_post 1) (as_alice store_posted)).2)
    = users (db (as_alice store_posted)) ∧
  comments (db (dispatch (delete_post 1) (as_alice store_posted)).2)
    = comments (db (as_alice store_posted)) ∧
  session (dispatch (delete_post 1) (as_alice store_posted)).2
    = session (as_alice store_posted).
Proof.
  apply (delete_post_removes_only_that_post 1 2 (as_alice store_posted)). lia.
Defined.

(** X17 on the scenario: a visitor reads post 1. *)
Lemma serve_read_only_witness :
  (serve env0 (to_show_post 1 None) (visitor store_posted)).2 = visitor store_posted.
Proof.
  apply (serve_read_only env0 (to_show_post 1 None) (visitor store_posted)).
  reflexivity.
Defined.

(** X18 on the scenario: "Hello" is on the index after Alice posted it. *)
Lemma add_new_post_listed_witness :
  ∃ (l : list (entity BlogPost.t)) (id : Z),
    dispatch get_all_posts (as_alice store_posted)
      = (render_template (index_jinja l), as_alice store_posted) ∧
    (id, hello) ∈ l ∧
    ∀ k p, blog_posts (db (as_alice store_users)) !! k = Some p → (k, p) ∈ l.
Proof.
  apply (add_new_post_listed env0 hello_form (as_alice store_users) (as_alice store_posted)).
  reflexivity.
Defined.

(** X13 on the scenario: a visitor opens the index of the store that
    holds "Hello". *)
Lemma listings_cover_store_witness :
  ∃ l, dispatch get_all_posts (visitor store_posted)
         = (render_template (index_jinja l), visitor store_posted) ∧
       (∀ k p, (k, p) ∈ l ↔ blog_posts (db (visitor store_posted)) !! k = Some p) ∧
       NoDup l.*1.
Proof.
  apply (proj1 (proj2 (listings_cover_store (visitor store_posted)))).
  by intros user_id.
Defined.


